(** * tubelyTS: the video-ingestion handler

    A shallow embedding of [handlerUploadVideo] and its helpers
    ([getVideoAspectRatio], [processVideoForFastStart],
    [dbVideoToSignedVideo]).  JavaScript numbers are IEEE binary64
    values, the file system and the object store are finite maps, the
    record table is a list of rows, and every operation of the handler
    runs in a state-and-exception monad over that world. *)

From Stdlib Require Import ZArith Floats Ascii String DecimalString.
From stdpp Require Import gmap strings list fin_maps.

Local Open Scope string_scope.
Local Open Scope Z_scope.

(** ** JavaScript numbers *)

Module JsNum.

(** [a << b] on JavaScript numbers: both operands become 32-bit
    integers, the count is taken modulo 32, the result is a signed
    32-bit integer. *)
Definition to_int32 (z : Z) : Z :=
  let m := z mod 2 ^ 32 in
  if m <? 2 ^ 31 then m else m - 2 ^ 32.

Definition shl (a b : Z) : Z :=
  to_int32 (Z.shiftl (to_int32 a) (b mod 32)).

(** An integer inside a template literal. *)
Definition show (z : Z) : string :=
  NilZero.string_of_int (Z.to_int z).

End JsNum.

(** ** Aspect classification *)

Inductive AspectBucket := landscape | portrait | other.

Definition bucket_name (b : AspectBucket) : string :=
  match b with
  | landscape => "landscape"
  | portrait => "portrait"
  | other => "other"
  end.

(** An entry of the probe's [streams] array: [width] and [height] are
    JSON numbers. *)
Record Stream := { width : float; height : float }.

(* 0.01 is read as the nearest binary64 value, as JavaScript reads it. *)
#[local] Set Warnings "-inexact-float".

Section Classify.
Local Open Scope float_scope.

(** Lines 132-138 of the handler file. *)
Definition classify (w h : float) : AspectBucket :=
  let ratio := w / h in
  if abs (ratio - 16 / 9) <? 0.01 then landscape
  else if abs (ratio - 9 / 16) <? 0.01 then portrait
  else other.

End Classify.

(** ** Errors and completions *)

Inductive JsError :=
| BadRequestError (msg : string)
| NotFoundError (msg : string)
| UserForbiddenError (msg : string)
| Error (msg : string)
| TypeError (msg : string)
| SyntaxError (msg : string)
| SystemError (msg : string).

Definition show_error (e : JsError) : string :=
  match e with
  | BadRequestError m => "BadRequestError: " ++ m
  | NotFoundError m => "NotFoundError: " ++ m
  | UserForbiddenError m => "UserForbiddenError: " ++ m
  | Error m => "Error: " ++ m
  | TypeError m => "TypeError: " ++ m
  | SyntaxError m => "SyntaxError: " ++ m
  | SystemError m => "SystemError: " ++ m
  end.

(** How a call ends: with a value or with a thrown error. *)
Inductive Completion (A : Type) :=
| Return (a : A)
| Throw (e : JsError).
Arguments Return {A} a.
Arguments Throw {A} e.

Definition is_throw {A} (c : Completion A) : bool :=
  match c with Throw _ => true | Return _ => false end.

(** ** The effect monad: state passing with exceptions *)

Definition Eff (S A : Type) : Type := S → Completion A * S.

Module Eff.
Section Ops.
Context {S : Type}.

Definition ret {A} (a : A) : Eff S A := λ s, (Return a, s).

Definition bind {A B} (m : Eff S A) (k : A → Eff S B) : Eff S B :=
  λ s, match m s with
       | (Return a, s') => k a s'
       | (Throw e, s') => (Throw e, s')
       end.

Definition throw {A} (e : JsError) : Eff S A := λ s, (Throw e, s).

Definition lift {A} (c : Completion A) : Eff S A := λ s, (c, s).

Definition get : Eff S S := λ s, (Return s, s).
Definition modify (f : S → S) : Eff S () := λ s, (Return (), f s).

(** [try { m } catch (err) { h err }] *)
Definition try_catch {A} (m : Eff S A) (h : JsError → Eff S A) : Eff S A :=
  λ s, match m s with
       | (Return a, s') => (Return a, s')
       | (Throw e, s') => h e s'
       end.

(** [try { m } finally { f }]: [f] runs on every exit of [m]; when
    [f] itself throws, its error replaces the completion of [m]. *)
Definition try_finally {A} (m : Eff S A) (f : Eff S ()) : Eff S A :=
  λ s, match m s with
       | (c, s') =>
           match f s' with
           | (Return _, s'') => (c, s'')
           | (Throw e, s'') => (Throw e, s'')
           end
       end.
End Ops.

(** A block with a local [let] variable of type [L], initialised to
    [l0] and dropped at the end of the block. *)
Definition with_local {S L A} (l0 : L) (m : Eff (S * L) A) : Eff S A :=
  λ s, match m (s, l0) with (c, (s', _)) => (c, s') end.

(** An operation on the outer state used inside such a block. *)
Definition outer {S L A} (m : Eff S A) : Eff (S * L) A :=
  λ '(s, l), match m s with (c, s') => (c, (s', l)) end.

Definition read_local {S L} : Eff (S * L) L := λ '(s, l), (Return l, (s, l)).
Definition assign_local {S L} (l : L) : Eff (S * L) () :=
  λ '(s, _), (Return (), (s, l)).
End Eff.

#[export] Instance Eff_ret {S} : MRet (Eff S) := @Eff.ret S.
#[export] Instance Eff_bind {S} : MBind (Eff S) := λ A B k m, Eff.bind m k.

(** ** The world the handler runs in *)

Definition Bytes := list Byte.byte.

Record File := { size : Z; type : string; bytes : Bytes }.

Record ApiConfig := {
  assetsRoot : string;
  jwtSecret : string;
  s3Bucket : string;
  s3Region : string
}.

Record Request := {
  params_videoId : option string;
  headers : list (string * string);
  formData_video : option File
}.

(** Modelled from the spec: the record store of [../db/videos], which
    is not among the source files ("Record Store: get(id) ->
    Record|absent, update(Record) -> void. Record carries an owner
    id").  A table is a list of rows; [columns] stands for the columns
    the handlers never touch.  Rows are values: what [getVideo] hands
    out is a copy, and only [updateVideo] writes the table. *)
Module Db.
Record Video := {
  id : string;
  userID : string;
  thumbnailURL : option string;
  videoURL : option string;
  columns : list (string * string)
}.

Definition set_videoURL (u : option string) (v : Video) : Video :=
  {| id := id v; userID := userID v; thumbnailURL := thumbnailURL v;
     videoURL := u; columns := columns v |}.

Definition getVideo (rows : list Video) (i : string) : option Video :=
  List.find (λ r, String.eqb (id r) i) rows.

Definition updateVideo (rows : list Video) (v : Video) : list Video :=
  List.map (λ r, if String.eqb (id r) (id v) then v else r) rows.
End Db.

Record Response := { status : Z; body : Db.Video }.

Record World := {
  fs : gmap string Bytes;                 (* local files *)
  s3 : gmap string (Bytes * string);      (* object store: key -> content, type *)
  db : list Db.Video;                     (* the videos table *)
  console : list string                   (* lines written by console.log *)
}.

Definition set_fs (f : gmap string Bytes) (w : World) : World :=
  {| fs := f; s3 := s3 w; db := db w; console := console w |}.
Definition set_s3 (o : gmap string (Bytes * string)) (w : World) : World :=
  {| fs := fs w; s3 := o; db := db w; console := console w |}.
Definition set_db (d : list Db.Video) (w : World) : World :=
  {| fs := fs w; s3 := s3 w; db := d; console := console w |}.
Definition set_console (c : list string) (w : World) : World :=
  {| fs := fs w; s3 := s3 w; db := db w; console := c |}.

(** What [Bun.spawn] hands back once the process has exited. *)
Record Exited := { exitCode : Z; stdout : string; stderr : string }.

(** [JSON.parse(stdout)] of the probe, as far as the handler reads it:
    [data.streams], [None] when that is not an array. *)
Record ProbeData := { streams : option (list Stream) }.

(** The collaborators the handler imports and the outcomes it cannot
    decide itself. *)
Record Env := {
  getBearerToken : list (string * string) → Completion string;
  validateJWT : string → string → Completion string;
  randomBytes_base64url : Z → string;
  path_join : string → string → string;
  spawn : list string → gmap string Bytes → Exited * gmap string Bytes;
  JSON_parse : string → Completion ProbeData;
  write_failure : string → option JsError;
  delete_failure : string → option JsError;
  upload_failure : string → option JsError;
  generatePresignedURL : ApiConfig → string → Z → string
}.

(** ** JavaScript strings and values *)

(** [s.split(c)] for a one-character separator. *)
Fixpoint split (c : Ascii.ascii) (s : string) : list string :=
  match s with
  | EmptyString => [EmptyString]
  | String a s' =>
      if Ascii.eqb a c then EmptyString :: split c s'
      else match split c s' with
           | h :: t => String a h :: t
           | [] => [String a EmptyString]
           end
  end.

(** An array element inside a template literal; a missing one prints
    as [undefined]. *)
Definition template_nth (l : list string) (i : nat) : string :=
  List.nth i l "undefined".

(** Truthiness of an optional string: [undefined] and the empty string
    are falsy. *)
Definition truthy (o : option string) : bool :=
  match o with
  | Some s => negb (String.eqb s "")
  | None => false
  end.

Definition MAX_UPLOAD_SIZE : Z := JsNum.shl 1 30.
Definition ALLOWED_THUMBNAIL_TYPES : list string := ["video/mp4"].

Definition includes (l : list string) (s : string) : bool :=
  List.existsb (String.eqb s) l.
Arguments includes : simpl never.

(** ** The handler and its helpers *)

Section Handler.
Context (env : Env).

(** *** Primitive operations on the world *)

Definition console_log (line : string) : Eff World () :=
  Eff.modify (λ w, set_console (console w ++ [line]) w).

(** [Bun.write(path, data)] *)
Definition Bun_write (path : string) (data : Bytes) : Eff World () :=
  match write_failure env path with
  | Some e => Eff.throw e
  | None => Eff.modify (λ w, set_fs (<[path := data]> (fs w)) w)
  end.

(** [Bun.file(path).exists()] *)
Definition Bun_file_exists (path : string) : Eff World bool :=
  w ← Eff.get; mret (bool_decide (is_Some (fs w !! path))).

(** [Bun.file(path).delete()] *)
Definition Bun_file_delete (path : string) : Eff World () :=
  match delete_failure env path with
  | Some e => Eff.throw e
  | None => Eff.modify (λ w, set_fs (delete path (fs w)) w)
  end.

(** [Bun.spawn(argv, {stdout: "pipe", stderr: "pipe"})] followed by
    the reads of its pipes and of [exited]: the process runs on the
    local files and may change them. *)
Definition Bun_spawn (argv : list string) : Eff World Exited :=
  λ w, let '(r, files) := spawn env argv (fs w) in (Return r, set_fs files w).

(** Modelled from the spec: [uploadVideoToS3] of [../s3], which is
    not among the source files ("upload(key, localPath, contentType)
    -> void, fails with UploadFailure on any transport or
    authorization error from the remote store").  The object stored
    is the content of the local file; a missing local file is a
    failure too. *)
Definition uploadVideoToS3 (cfg : ApiConfig) (key path contentType : string)
  : Eff World () :=
  match upload_failure env key with
  | Some e => Eff.throw e
  | None =>
      w ← Eff.get;
      match fs w !! path with
      | Some data => Eff.modify (set_s3 (<[key := (data, contentType)]> (s3 w)))
      | None => Eff.throw (SystemError ("ENOENT: " ++ path))
      end
  end.

(** *** getVideoAspectRatio (lines 100-141) *)

Definition ffprobe_argv (filepath : string) : list string :=
  ["ffprobe"; "-v"; "error"; "-select_streams"; "v:0"; "-show_entries";
   "stream=width,height"; "-of"; "json"; "-show_streams"; filepath].

Definition getVideoAspectRatio (filepath : string) : Eff World AspectBucket :=
  result ← Bun_spawn (ffprobe_argv filepath);
  if negb (exitCode result =? 0) then
    Eff.throw (Error ("ffprobe failed with exit code "
                        ++ JsNum.show (exitCode result) ++ ": " ++ stderr result))
  else
    data ← Eff.lift (JSON_parse env (stdout result));
    match streams data with
    | None =>
        Eff.throw (TypeError "undefined is not an object (evaluating 'data.streams[0]')")
    | Some [] =>
        Eff.throw (TypeError "Right side of assignment cannot be destructured")
    | Some (s :: _) => mret (classify (width s) (height s))
    end.

(** *** processVideoForFastStart (lines 143-173) *)

Definition ffmpeg_argv (inputFilePath outputFilePath : string) : list string :=
  ["ffmpeg"; "-i"; inputFilePath; "-movflags"; "faststart"; "-map_metadata";
   "0"; "-codec"; "copy"; "-f"; "mp4"; outputFilePath].

Definition processVideoForFastStart (inputFilePath : string) : Eff World string :=
  let outputFilePath := inputFilePath ++ ".processed.mp4" in
  result ← Bun_spawn (ffmpeg_argv inputFilePath outputFilePath);
  if negb (exitCode result =? 0) then
    Eff.throw (Error ("ffprobe failed with exit code "
                        ++ JsNum.show (exitCode result) ++ ": " ++ stderr result))
  else mret outputFilePath.

(** *** dbVideoToSignedVideo (lines 175-183) *)

Definition dbVideoToSignedVideo (cfg : ApiConfig) (video : Db.Video)
  : Eff World Db.Video :=
  if negb (truthy (Db.videoURL video)) then mret video
  else
    let key := default "" (Db.videoURL video) in
    console_log ("signing key: " ++ key);;
    mret (Db.set_videoURL (Some (generatePresignedURL env cfg key (5 * 60))) video).

(** *** handlerUploadVideo (lines 15-98) *)

(** The [try] block, lines 59-83.  The variable [processedFilepath]
    is declared outside it and assigned inside. *)
Definition upload_try (cfg : ApiConfig) (userID : string) (video : Db.Video)
    (buffer : Bytes) (tempFileName tempFilepath : string)
  : Eff (World * string) Response :=
  Eff.outer (Bun_write tempFilepath buffer);;
  aspectRatio ← Eff.outer (getVideoAspectRatio tempFilepath);
  Eff.outer (console_log ("uploading video " ++ bucket_name aspectRatio ++ "/"
                            ++ tempFileName ++ " by user " ++ userID));;
  out ← Eff.outer (processVideoForFastStart tempFilepath);
  Eff.assign_local out;;
  processedFilepath ← Eff.read_local;
  Eff.outer (uploadVideoToS3 cfg (bucket_name aspectRatio ++ "/" ++ processedFilepath)
               processedFilepath "video/mp4");;
  let videoURL := bucket_name aspectRatio ++ "/" ++ processedFilepath in
  Eff.outer (console_log ("Uploaded video to S3: " ++ videoURL));;
  let video := Db.set_videoURL (Some videoURL) video in
  Eff.outer (Eff.modify (λ w, set_db (Db.updateVideo (db w) video) w));;
  signed ← Eff.outer (dbVideoToSignedVideo cfg video);
  mret {| status := 200; body := signed |}.

(** The inner [try] of the [finally] block, lines 86-93. *)
Definition release_scratch (tempFilepath : string) : Eff (World * string) () :=
  e1 ← Eff.outer (Bun_file_exists tempFilepath);
  (if e1 : bool then
     Eff.outer (Bun_file_delete tempFilepath);;
     Eff.outer (console_log "Deleted temp video file")
   else mret ());;
  processedFilepath ← Eff.read_local;
  e2 ← Eff.outer (Bun_file_exists processedFilepath);
  if e2 : bool then
    Eff.outer (Bun_file_delete processedFilepath);;
    Eff.outer (console_log "Deleted processed video file")
  else mret ().

(** The [finally] block, lines 85-96. *)
Definition upload_finally (tempFilepath : string) : Eff (World * string) () :=
  Eff.try_catch (release_scratch tempFilepath)
    (λ err, Eff.outer
              (console_log ("Failed to delete temp video file: " ++ show_error err))).

(** Lines 16-48: everything that runs before the first scratch file. *)
Definition upload_checks (cfg : ApiConfig) (req : Request)
  : Eff World (string * Db.Video * File) :=
  (if negb (truthy (params_videoId req))
   then Eff.throw (BadRequestError "Invalid video ID") else mret ());;
  let videoId := default "" (params_videoId req) in
  token ← Eff.lift (getBearerToken env (headers req));
  userID ← Eff.lift (validateJWT env token (jwtSecret cfg));
  w ← Eff.get;
  match Db.getVideo (db w) videoId with
  | None => Eff.throw (NotFoundError "Couldn't find video")
  | Some video =>
      if negb (String.eqb (Db.userID video) userID) then
        Eff.throw (UserForbiddenError "You do not have permission to modify this video")
      else
        match formData_video req with
        | None => Eff.throw (BadRequestError "No video file provided")
        | Some file =>
            if size file >? MAX_UPLOAD_SIZE then
              Eff.throw (BadRequestError "Video file is too large (max 1 GB)")
            else if negb (includes ALLOWED_THUMBNAIL_TYPES (type file)) then
              Eff.throw (BadRequestError "Unsupported thumbnail file type")
            else mret (userID, video, file)
        end
  end.

Definition handlerUploadVideo (cfg : ApiConfig) (req : Request)
  : Eff World Response :=
  '(userID, video, file) ← upload_checks cfg req;
  let mediaType := type file in
  let buffer := bytes file in
  let randomString := randomBytes_base64url env 32 in
  let tempFileName :=
    randomString ++ "." ++ template_nth (split "/"%char mediaType) 1 in
  let tempFilepath := path_join env (assetsRoot cfg) tempFileName in
  Eff.with_local ""
    (Eff.try_finally
       (upload_try cfg userID video buffer tempFileName tempFilepath)
       (upload_finally tempFilepath)).

End Handler.

(** ** A concrete deployment, for running the handler *)

Module Demo.

(** What the outside world does during one request. *)
Record Scenario := {
  probe : Exited;                 (* how ffprobe exits *)
  probe_json : Completion ProbeData; (* what JSON.parse makes of its output *)
  remux : Exited;                 (* how ffmpeg exits *)
  remux_writes_output : bool;     (* whether ffmpeg created its output file *)
  undeletable : list string;      (* paths whose deletion fails *)
  upload_fails : bool
}.

Definition starts_with (cmd : string) (argv : list string) : bool :=
  match argv with
  | c :: _ => String.eqb c cmd
  | [] => false
  end.

Definition env (sc : Scenario) : Env := {|
  getBearerToken hs :=
    match List.find (λ h, String.eqb (fst h) "Authorization") hs with
    | Some h => Return (snd h)
    | None => Throw (BadRequestError "Malformed authorization header")
    end;
  validateJWT token secret :=
    if String.eqb token "" then Throw (Error "Invalid token") else Return token;
  randomBytes_base64url n := "q0Zr3vXw";
  path_join dir name := dir ++ "/" ++ name;
  spawn argv files :=
    if starts_with "ffprobe" argv then (probe sc, files)
    else if starts_with "ffmpeg" argv then
      (remux sc,
       if remux_writes_output sc
       then <[List.last argv "" := [Byte.x66; Byte.x74; Byte.x79; Byte.x70]]> files
       else files)
    else ({| exitCode := 127; stdout := ""; stderr := "command not found" |}, files);
  JSON_parse out := probe_json sc;
  write_failure path := None;
  delete_failure path :=
    if includes (undeletable sc) path
    then Some (SystemError ("EPERM: " ++ path)) else None;
  upload_failure key :=
    if upload_fails sc then Some (Error "S3 upload failed") else None;
  generatePresignedURL cfg key ttl :=
    "https://" ++ s3Bucket cfg ++ ".s3." ++ s3Region cfg ++ ".amazonaws.com/"
      ++ key ++ "?X-Amz-Expires=" ++ JsNum.show ttl
|}.

Definition cfg : ApiConfig :=
  {| assetsRoot := "assets"; jwtSecret := "secret";
     s3Bucket := "tubely"; s3Region := "eu-west-1" |}.

Definition boots : Db.Video :=
  {| Db.id := "v1"; Db.userID := "alice"; Db.thumbnailURL := Some "data:image/png;base64,AA==";
     Db.videoURL := None; Db.columns := [("title", "Boots")] |}.

Definition world0 : World :=
  {| fs := ∅; s3 := ∅; db := [boots]; console := [] |}.

Definition mp4 : File :=
  {| size := 4; type := "video/mp4";
     bytes := [Byte.x00; Byte.x00; Byte.x00; Byte.x18] |}.

Definition request (user : string) (file : option File) : Request :=
  {| params_videoId := Some "v1"; headers := [("Authorization", user)];
     formData_video := file |}.

Definition ok (out err : string) : Exited :=
  {| exitCode := 0; stdout := out; stderr := err |}.
Definition failed (code : Z) (err : string) : Exited :=
  {| exitCode := code; stdout := ""; stderr := err |}.

Definition hd1080 : Completion ProbeData :=
  Return {| streams := Some [ {| width := 1920; height := 1080 |} ] |}.

(** Everything works. *)
Definition happy : Scenario :=
  {| probe := ok "{...}" ""; probe_json := hd1080; remux := ok "" "";
     remux_writes_output := true; undeletable := []; upload_fails := false |}.

(** ffmpeg exits with 1 after it has created its output file. *)
Definition remux_breaks : Scenario :=
  {| probe := ok "{...}" ""; probe_json := hd1080;
     remux := failed 1 "Conversion failed!";
     remux_writes_output := true; undeletable := []; upload_fails := false |}.

(** The upload fails and the staged file cannot be deleted. *)
Definition stuck_temp : Scenario :=
  {| probe := ok "{...}" ""; probe_json := hd1080; remux := ok "" "";
     remux_writes_output := true; undeletable := ["assets/q0Zr3vXw.mp4"];
     upload_fails := true |}.

End Demo.

(** ** What the spec says, in its own words *)

Module Spec.
Section Words.
Local Open Scope float_scope.

(** "if |ratio − 16/9| < 0.01 → landscape; else if |ratio − 9/16|
    < 0.01 → portrait; else → other" *)
Definition bucket_of_ratio (ratio : float) : AspectBucket :=
  if abs (ratio - 16 / 9) <? 0.01 then landscape
  else if abs (ratio - 9 / 16) <? 0.01 then portrait
  else other.
End Words.

(** "max upload size 1 GiB"; "only video/mp4 accepted" *)
Definition one_GiB : Z := 1073741824.
Definition accepted_type : string := "video/mp4".

(** "short TTL, e.g. 5 minutes" *)
Definition ttl_seconds : Z := 300.

(** "key = {aspectBucket}/{generatedName}", the generated name being
    "{32-byte-random-base64url}.mp4" *)
Definition object_key (bucket : AspectBucket) (random : string) : string :=
  bucket_name bucket ++ "/" ++ random ++ ".mp4".
End Spec.

(** The probe's output has a first video stream. *)
Definition has_video_stream (parsed : Completion ProbeData) : bool :=
  match parsed with
  | Return d => match streams d with Some (_ :: _) => true | _ => false end
  | Throw _ => false
  end.

(** The request names a record, carries a token that validates as
    [user], and the record [video] is in the table. *)
Definition reaches_record (env : Env) (cfg : ApiConfig) (req : Request)
    (w : World) (user : string) (video : Db.Video) : Prop :=
  ∃ videoId token,
    params_videoId req = Some videoId ∧ videoId ≠ ""
    ∧ getBearerToken env (headers req) = Return token
    ∧ validateJWT env token (jwtSecret cfg) = Return user
    ∧ Db.getVideo (db w) videoId = Some video.

(** The paths of the two scratch files of a request: the staged
    upload, and the processed file next to it. *)
Definition staged_path (env : Env) (cfg : ApiConfig) : string :=
  path_join env (assetsRoot cfg) (randomBytes_base64url env 32 ++ ".mp4").

Definition processed_path (env : Env) (cfg : ApiConfig) : string :=
  staged_path env cfg ++ ".processed.mp4".

(** ** The handler without probe and remux

    The second file that defines [handlerUploadVideo]: it stages the
    upload, stores it under the generated name and records the public
    URL of the object. *)

Module Direct.
Section Handler.
Context (env : Env).

(** Lines 17-51: the checks; the console line of line 36 is written
    once the record is known to belong to the caller. *)
Definition checks (cfg : ApiConfig) (req : Request)
  : Eff World (string * Db.Video * File) :=
  (if negb (truthy (params_videoId req))
   then Eff.throw (BadRequestError "Invalid video ID") else mret ());;
  let videoId := default "" (params_videoId req) in
  token ← Eff.lift (getBearerToken env (headers req));
  userID ← Eff.lift (validateJWT env token (jwtSecret cfg));
  w ← Eff.get;
  match Db.getVideo (db w) videoId with
  | None => Eff.throw (NotFoundError "Couldn't find video")
  | Some video =>
      if negb (String.eqb (Db.userID video) userID) then
        Eff.throw (UserForbiddenError "You do not have permission to modify this video")
      else
        console_log ("uploading video " ++ videoId ++ " by user " ++ userID);;
        match formData_video req with
        | None => Eff.throw (BadRequestError "No video file provided")
        | Some file =>
            if size file >? MAX_UPLOAD_SIZE then
              Eff.throw (BadRequestError "Video file is too large (max 1 GB)")
            else if negb (includes ALLOWED_THUMBNAIL_TYPES (type file)) then
              Eff.throw (BadRequestError "Unsupported thumbnail file type")
            else mret (userID, video, file)
        end
  end.

(** The [try] block, lines 61-70. *)
Definition try_block (cfg : ApiConfig) (video : Db.Video) (buffer : Bytes)
    (key tempFilepath : string) : Eff World Response :=
  Bun_write env tempFilepath buffer;;
  uploadVideoToS3 env cfg key tempFilepath "video/mp4";;
  let videoURL :=
    "https://" ++ s3Bucket cfg ++ ".s3." ++ s3Region cfg ++ ".amazonaws.com/" ++ key in
  console_log ("Uploaded video to S3: " ++ videoURL);;
  let video := Db.set_videoURL (Some videoURL) video in
  Eff.modify (λ w, set_db (Db.updateVideo (db w) video) w);;
  mret {| status := 200; body := video |}.

(** The inner [try] of the [finally] block, lines 73-76. *)
Definition release (tempFilepath : string) : Eff World () :=
  e ← Bun_file_exists tempFilepath;
  if e : bool then
    Bun_file_delete env tempFilepath;;
    console_log "Deleted temp video file"
  else mret ().

(** The [finally] block, lines 72-79. *)
Definition finally_block (tempFilepath : string) : Eff World () :=
  Eff.try_catch (release tempFilepath)
    (λ err, console_log ("Failed to delete temp video file: " ++ show_error err)).

Definition handlerUploadVideo (cfg : ApiConfig) (req : Request)
  : Eff World Response :=
  '(userID, video, file) ← checks cfg req;
  let mediaType := type file in
  let buffer := bytes file in
  let randomString := randomBytes_base64url env 32 in
  let key := randomString ++ "." ++ template_nth (split "/"%char mediaType) 1 in
  let tempFilepath := path_join env (assetsRoot cfg) key in
  Eff.try_finally (try_block cfg video buffer key tempFilepath)
    (finally_block tempFilepath).

End Handler.
End Direct.

(** ** Thumbnails (src/api/thumbnails.ts) *)

(** [buffer.toString("base64")]: the standard alphabet, padded with [=]. *)
Module Base64.

Definition alphabet : string :=
  "ABCDEFGHIJKLMNOPQRSTUVWXYZabcdefghijklmnopqrstuvwxyz0123456789+/".

Definition digit (n : N) : Ascii.ascii :=
  match String.get (N.to_nat n) alphabet with
  | Some c => c
  | None => "="%char
  end.

Fixpoint encode (data : Bytes) : string :=
  match data with
  | [] => ""
  | [a] =>
      let x := Byte.to_N a in
      String (digit (x / 4)) (String (digit (x mod 4 * 16)) "==")
  | [a; b] =>
      let x := Byte.to_N a in
      let y := Byte.to_N b in
      String (digit (x / 4))
        (String (digit (x mod 4 * 16 + y / 16))
           (String (digit (y mod 16 * 4)) "="))
  | a :: b :: c :: rest =>
      let x := Byte.to_N a in
      let y := Byte.to_N b in
      let z := Byte.to_N c in
      String (digit (x / 4))
        (String (digit (x mod 4 * 16 + y / 16))
           (String (digit (y mod 16 * 4 + z / 64))
              (String (digit (z mod 64)) (encode rest))))
  end%N.

End Base64.

Module Thumbnails.

Definition MAX_UPLOAD_SIZE : Z := JsNum.shl 10 20.

(** The request as this handler reads it: the multipart field is
    [thumbnail]. *)
Record Request := {
  params_videoId : option string;
  headers : list (string * string);
  formData_thumbnail : option File
}.

Section Handler.
Context (env : Env).

Definition handlerUploadThumbnail (cfg : ApiConfig) (req : Request)
  : Eff World Response :=
  (if negb (truthy (params_videoId req))
   then Eff.throw (BadRequestError "Invalid video ID") else mret ());;
  let videoId := default "" (params_videoId req) in
  token ← Eff.lift (getBearerToken env (headers req));
  userID ← Eff.lift (validateJWT env token (jwtSecret cfg));
  console_log ("uploading thumbnail for video " ++ videoId ++ " by user " ++ userID);;
  match formData_thumbnail req with
  | None => Eff.throw (BadRequestError "No thumbnail file provided")
  | Some file =>
      if size file >? MAX_UPLOAD_SIZE then
        Eff.throw (BadRequestError "Thumbnail file is too large")
      else
        let mediaType := type file in
        let buffer := bytes file in
        w ← Eff.get;
        match Db.getVideo (db w) videoId with
        | None => Eff.throw (NotFoundError "Couldn't find video")
        | Some video =>
            if negb (String.eqb (Db.userID video) userID) then
              Eff.throw (UserForbiddenError
                           "You do not have permission to modify this video")
            else
              let thumbnailURL :=
                "data:" ++ mediaType ++ ";base64," ++ Base64.encode buffer in
              let video :=
                {| Db.id := Db.id video; Db.userID := Db.userID video;
                   Db.thumbnailURL := Some thumbnailURL;
                   Db.videoURL := Db.videoURL video;
                   Db.columns := Db.columns video |} in
              Eff.modify (λ w, set_db (Db.updateVideo (db w) video) w);;
              mret {| status := 200; body := video |}
        end
  end.

End Handler.

(** A PNG thumbnail for the record [v1]. *)
Definition png : File :=
  {| size := 3; type := "image/png"; bytes := [Byte.x4d; Byte.x61; Byte.x6e] |}.

Definition request (user : string) (file : option File) : Request :=
  {| params_videoId := Some "v1"; headers := [("Authorization", user)];
     formData_thumbnail := file |}.

End Thumbnails.

(** Further scenarios for running the handlers. *)
Module Cases.

(** The object store refuses the upload; every deletion works. *)
Definition upload_breaks : Demo.Scenario :=
  {| Demo.probe := Demo.ok "{...}" ""; Demo.probe_json := Demo.hd1080;
     Demo.remux := Demo.ok "" ""; Demo.remux_writes_output := true;
     Demo.undeletable := []; Demo.upload_fails := true |}.

(** A request without the [videoId] path parameter. *)
Definition anonymous_request : Request :=
  {| params_videoId := None; headers := []; formData_video := Some Demo.mp4 |}.

(** A file of exactly 1 GiB, by its declared size. *)
Definition one_GiB_file : File :=
  {| size := 1073741824; type := "video/mp4"; bytes := [] |}.

End Cases.

(** ** Reasoning about runs *)

Ltac eff_unfold :=
  unfold mbind, mret, Eff_bind, Eff_ret, Eff.bind, Eff.ret, Eff.throw,
    Eff.lift, Eff.get, Eff.modify, Eff.outer, Eff.read_local,
    Eff.assign_local, Eff.try_catch in *.

Lemma MAX_UPLOAD_SIZE_is_1GiB : MAX_UPLOAD_SIZE = Spec.one_GiB.
Proof. reflexivity. Qed.

Lemma includes_allowed (t : string) :
  includes ALLOWED_THUMBNAIL_TYPES t = true ↔ t = Spec.accepted_type.
Proof.
  unfold includes, ALLOWED_THUMBNAIL_TYPES, Spec.accepted_type. simpl.
  rewrite orb_false_r. apply String.eqb_eq.
Qed.

Lemma truthy_Some (o : option string) :
  truthy o = true ↔ ∃ s, o = Some s ∧ s ≠ "".
Proof.
  destruct o as [s|]; simpl.
  - rewrite negb_true_iff, String.eqb_neq. split.
    + intros H. exists s. auto.
    + intros (s' & [= <-] & H). exact H.
  - split; [discriminate | intros (s & [=] & _)].
Qed.

Lemma truthy_false (o : option string) :
  truthy o = false ↔ o = None ∨ o = Some "".
Proof.
  destruct o as [s|]; simpl.
  - rewrite negb_false_iff, String.eqb_eq. split.
    + intros ->. now right.
    + intros [[=] | [= ->]]. reflexivity.
  - split; auto.
Qed.

Section Inspector.
Context (env : Env).

(** The run of the probe, by cases on how the process ended. *)
Lemma getVideoAspectRatio_run (path : string) (w : World) :
  let r := (spawn env (ffprobe_argv path) (fs w)).1 in
  let w' := set_fs (spawn env (ffprobe_argv path) (fs w)).2 w in
  getVideoAspectRatio env path w =
    if negb (exitCode r =? 0) then
      (Throw (Error ("ffprobe failed with exit code "
                       ++ JsNum.show (exitCode r) ++ ": " ++ stderr r)), w')
    else
      match JSON_parse env (stdout r) with
      | Throw e => (Throw e, w')
      | Return d =>
          match streams d with
          | None =>
              (Throw (TypeError
                 "undefined is not an object (evaluating 'data.streams[0]')"), w')
          | Some [] =>
              (Throw (TypeError "Right side of assignment cannot be destructured"), w')
          | Some (s :: _) => (Return (classify (width s) (height s)), w')
          end
      end.
Proof.
  unfold getVideoAspectRatio, Bun_spawn. eff_unfold.
  destruct (spawn env (ffprobe_argv path) (fs w)) as [r files]. simpl.
  destruct (exitCode r =? 0); simpl; [|reflexivity].
  destruct (JSON_parse env (stdout r)) as [d|e]; [|reflexivity].
  destruct (streams d) as [[|s rest]|]; reflexivity.
Qed.

Lemma classify_is_bucket_of_ratio (w h : float) :
  classify w h = Spec.bucket_of_ratio (w / h)%float.
Proof. reflexivity. Qed.

End Inspector.

(** C2: whenever the probe exits with 0 and reports a first stream of
    width [w] and height [h], the inspection returns the bucket the
    spec's rule gives for the ratio [w / h]: landscape when
    |ratio - 16/9| < 0.01, else portrait when |ratio - 9/16| < 0.01,
    else other.  In particular the ratio 16/9 is landscape, 9/16 is
    portrait, 1.0 is other, 16/9 +- 0.005 is landscape and
    16/9 +- 0.02 is other. *)
Theorem C2_aspect_classification :
  (∀ (env : Env) (path : string) (w : World) (d : ProbeData) (s : Stream)
     (rest : list Stream),
      exitCode (spawn env (ffprobe_argv path) (fs w)).1 = 0 →
      JSON_parse env (stdout (spawn env (ffprobe_argv path) (fs w)).1) = Return d →
      streams d = Some (s :: rest) →
      (getVideoAspectRatio env path w).1
        = Return (Spec.bucket_of_ratio (width s / height s)%float))
  ∧ Spec.bucket_of_ratio (16 / 9)%float = landscape
  ∧ Spec.bucket_of_ratio (9 / 16)%float = portrait
  ∧ Spec.bucket_of_ratio 1%float = other
  ∧ Spec.bucket_of_ratio (16 / 9 + 0.005)%float = landscape
  ∧ Spec.bucket_of_ratio (16 / 9 - 0.005)%float = landscape
  ∧ Spec.bucket_of_ratio (16 / 9 + 0.02)%float = other
  ∧ Spec.bucket_of_ratio (16 / 9 - 0.02)%float = other.
Proof.
  split.
  - intros env path w d s rest Hexit Hjson Hstreams.
    rewrite getVideoAspectRatio_run. cbv zeta.
    rewrite Hexit. simpl. rewrite Hjson, Hstreams. reflexivity.
  - repeat split; vm_compute; reflexivity.
Qed.

(** A 1920x1080 stream is filed under landscape. *)
Lemma C2_aspect_classification_witness :
  (getVideoAspectRatio (Demo.env Demo.happy) "assets/q0Zr3vXw.mp4" Demo.world0).1
    = Return landscape.
Proof.
  exact (proj1 C2_aspect_classification (Demo.env Demo.happy)
           "assets/q0Zr3vXw.mp4" Demo.world0
           {| streams := Some [ {| width := 1920; height := 1080 |} ] |}
           {| width := 1920; height := 1080 |} []
           eq_refl eq_refl eq_refl).
Defined.

(** C5: the inspection fails exactly when the probing process exits
    with a non-zero code or its output has no video stream; after a
    non-zero exit the error message carries the captured stderr, and
    without a video stream no bucket is returned. *)
Theorem C5_probe_failure (env : Env) (path : string) (w : World) :
  let r := (spawn env (ffprobe_argv path) (fs w)).1 in
  let outcome := (getVideoAspectRatio env path w).1 in
  (is_throw outcome = true
     ↔ exitCode r ≠ 0 ∨ has_video_stream (JSON_parse env (stdout r)) = false)
  ∧ (exitCode r ≠ 0 →
       outcome = Throw (Error ("ffprobe failed with exit code "
                                 ++ JsNum.show (exitCode r) ++ ": " ++ stderr r)))
  ∧ (has_video_stream (JSON_parse env (stdout r)) = false →
       ∀ b, outcome ≠ Return b).
Proof.
  cbv zeta. rewrite getVideoAspectRatio_run. cbv zeta.
  set (r := (spawn env (ffprobe_argv path) (fs w)).1).
  destruct (Z.eqb_spec (exitCode r) 0) as [H0|H0]; simpl.
  - unfold has_video_stream.
    destruct (JSON_parse env (stdout r)) as [d|e]; simpl.
    + destruct (streams d) as [[|s rest]|]; simpl;
        (split; [split; [intros; auto | intros [?|?]; congruence]
                | split; [congruence | intros; congruence]]).
    + split; [split; auto | split; [congruence | intros; congruence]].
  - split; [split; auto | split; [reflexivity | intros; congruence]].
Qed.

(** ffprobe exits with 1 and prints a diagnostic. *)
Lemma C5_probe_failure_witness :
  (getVideoAspectRatio
     (Demo.env {| Demo.probe := Demo.failed 1 "moov atom not found";
                  Demo.probe_json := Throw (SyntaxError "Unexpected end of JSON input");
                  Demo.remux := Demo.ok "" ""; Demo.remux_writes_output := true;
                  Demo.undeletable := []; Demo.upload_fails := false |})
     "assets/q0Zr3vXw.mp4" Demo.world0).1
  = Throw (Error "ffprobe failed with exit code 1: moov atom not found").
Proof.
  refine (proj1 (proj2 (C5_probe_failure _ "assets/q0Zr3vXw.mp4" Demo.world0)) _).
  vm_compute. discriminate.
Defined.

(** Dimensions of real encodes, through the handler's own function. *)
Example classify_samples :
  classify 1920 1080 = landscape ∧ classify 1280 720 = landscape
  ∧ classify 1080 1920 = portrait ∧ classify 608 1080 = portrait
  ∧ classify 1080 1080 = other ∧ classify 640 480 = other
  ∧ classify 3209 1800 = landscape ∧ classify 1618 900 = other.
Proof. repeat split; vm_compute; reflexivity. Qed.

Section Signing.
Context (env : Env) (cfg : ApiConfig).



End Signing.




(** ** The checks before staging *)

Section Checks.
Context (env : Env) (cfg : ApiConfig) (req : Request).

(** The checks read the world and never change it. *)
Lemma upload_checks_world (w : World) :
  (upload_checks env cfg req w).2 = w.
Proof.
  unfold upload_checks. eff_unfold.
  repeat (case_match; simplify_eq; try reflexivity).
Qed.

(** What is known once the checks have passed. *)
Lemma upload_checks_pass (w w' : World) (user : string) (video : Db.Video)
    (file : File) :
  upload_checks env cfg req w = (Return (user, video, file), w') →
  w' = w
  ∧ (∃ token, getBearerToken env (headers req) = Return token
              ∧ validateJWT env token (jwtSecret cfg) = Return user)
  ∧ (∃ videoId, params_videoId req = Some videoId ∧ videoId ≠ ""
                ∧ Db.getVideo (db w) videoId = Some video)
  ∧ Db.userID video = user
  ∧ formData_video req = Some file
  ∧ size file ≤ Spec.one_GiB
  ∧ type file = Spec.accepted_type.
Proof.
  intros H. split.
  { rewrite <- (upload_checks_world w). rewrite H. reflexivity. }
  revert H. unfold upload_checks. eff_unfold.
  destruct (truthy (params_videoId req)) eqn:Hid; simpl; [|discriminate].
  apply truthy_Some in Hid as (videoId & Hid & Hne). rewrite Hid. simpl.
  destruct (getBearerToken env (headers req)) as [token|e] eqn:Htok;
    [|discriminate].
  destruct (validateJWT env token (jwtSecret cfg)) as [u|e] eqn:Hjwt;
    [|discriminate].
  destruct (Db.getVideo (db w) videoId) as [v|] eqn:Hget; [|discriminate].
  destruct (String.eqb_spec (Db.userID v) u) as [Hown|];
    cbn [negb]; [|discriminate].
  destruct (formData_video req) as [f|]; [|discriminate].
  destruct (Z.gtb_spec (size f) MAX_UPLOAD_SIZE) as [|Hsize]; [discriminate|].
  destruct (includes ALLOWED_THUMBNAIL_TYPES (type f)) eqn:Htype;
    cbn [negb]; [|discriminate].
  apply includes_allowed in Htype.
  intros [= -> -> ->].
  rewrite MAX_UPLOAD_SIZE_is_1GiB in Hsize.
  split; [exists token; auto|].
  split; [exists videoId; auto|]. auto.
Qed.

(** A run that is stopped by a check leaves the world as it found it. *)
Lemma handler_stopped_by_check (w : World) (e : JsError) :
  (upload_checks env cfg req w).1 = Throw e →
  handlerUploadVideo env cfg req w = (Throw e, w).
Proof.
  intros H. pose proof (upload_checks_world w) as Hw.
  unfold handlerUploadVideo. eff_unfold.
  destruct (upload_checks env cfg req w) as [c w1]. simpl in *. subst.
  reflexivity.
Qed.

End Checks.

(** ** Cleanup *)

Section Cleanup.
Context (env : Env).

(** Releasing the scratch files touches neither the object store nor
    the table, and leaves the local variable alone. *)
Lemma release_scratch_frame (temp : string) (w : World) (p : string) :
  let st := (release_scratch env temp (w, p)).2 in
  s3 st.1 = s3 w ∧ db st.1 = db w ∧ st.2 = p.
Proof.
  unfold release_scratch, Bun_file_exists, Bun_file_delete, console_log.
  eff_unfold. cbv zeta.
  repeat (case_match; simplify_eq/=); auto.
Qed.

(** The [finally] block swallows whatever its inner [try] throws. *)
Lemma upload_finally_returns (temp : string) (st : World * string) :
  (upload_finally env temp st).1 = Return ().
Proof.
  unfold upload_finally, Eff.try_catch, console_log. eff_unfold.
  destruct (release_scratch env temp st) as [[[]|e] [w p]]; reflexivity.
Qed.

(** When the inner [try] throws, the [finally] block only adds a
    line to the console. *)
Lemma upload_finally_caught (temp : string) (st st' : World * string)
    (err : JsError) :
  release_scratch env temp st = (Throw err, st') →
  upload_finally env temp st =
    (Return (),
     (set_console
        (console st'.1 ++ ["Failed to delete temp video file: " ++ show_error err])
        st'.1, st'.2)).
Proof.
  intros H. unfold upload_finally, Eff.try_catch. rewrite H.
  destruct st' as [w p]. reflexivity.
Qed.

Lemma upload_finally_frame (temp : string) (w : World) (p : string) :
  let st := (upload_finally env temp (w, p)).2 in
  s3 st.1 = s3 w ∧ db st.1 = db w.
Proof.
  cbv zeta. pose proof (release_scratch_frame temp w p) as Hf.
  cbv zeta in Hf. unfold upload_finally, Eff.try_catch, console_log.
  eff_unfold.
  destruct (release_scratch env temp (w, p)) as [[[]|e] [w1 p1]];
    simpl in *; tauto.
Qed.

(** A deletion that fails for the staged file ends the inner [try]:
    the processed file is not looked at. *)
Lemma release_scratch_short_circuit (temp : string) (w : World) (p : string)
    (err : JsError) :
  is_Some (fs w !! temp) →
  delete_failure env temp = Some err →
  release_scratch env temp (w, p) = (Throw err, (w, p)).
Proof.
  intros Hex Hdel.
  unfold release_scratch, Bun_file_exists, Bun_file_delete. eff_unfold.
  rewrite bool_decide_eq_true_2 by exact Hex. rewrite Hdel. reflexivity.
Qed.

End Cleanup.

(** ** The record store *)

Section RecordStore.
Implicit Types (rows : list Db.Video) (v : Db.Video) (i : string).

Lemma getVideo_id rows i v : Db.getVideo rows i = Some v → Db.id v = i.
Proof.
  unfold Db.getVideo. intros H. apply List.find_some in H as [_ H].
  now apply String.eqb_eq.
Qed.

(** After [updateVideo], reading the same id gives the record written. *)
Lemma getVideo_updateVideo_same rows i v v' :
  Db.getVideo rows i = Some v → Db.id v' = i →
  Db.getVideo (Db.updateVideo rows v') i = Some v'.
Proof.
  intros Hget <-. revert Hget. unfold Db.getVideo, Db.updateVideo.
  induction rows as [|r rows IH]; simpl; [discriminate|].
  destruct (String.eqb_spec (Db.id r) (Db.id v')) as [Hr|Hr]; simpl.
  - rewrite String.eqb_refl. reflexivity.
  - apply String.eqb_neq in Hr. rewrite Hr. exact IH.
Qed.

(** Every other id reads as before. *)
Lemma getVideo_updateVideo_other rows i v' :
  Db.id v' ≠ i →
  Db.getVideo (Db.updateVideo rows v') i = Db.getVideo rows i.
Proof.
  intros Hne. unfold Db.getVideo, Db.updateVideo.
  induction rows as [|r rows IH]; simpl; [reflexivity|].
  destruct (String.eqb_spec (Db.id r) (Db.id v')) as [Hr|Hr]; simpl.
  - apply String.eqb_neq in Hne. rewrite Hne.
    rewrite Hr, Hne. apply IH.
  - rewrite IH. reflexivity.
Qed.

End RecordStore.

(** ** The pipeline between staging and response *)

Lemma key_not_empty (b : AspectBucket) (s : string) :
  bucket_name b ++ "/" ++ s ≠ "".
Proof. destruct b; discriminate. Qed.

Example split_media_type : split "/" "video/mp4" = ["video"; "mp4"].
Proof. reflexivity. Qed.

Lemma mp4_extension : template_nth (split "/" Spec.accepted_type) 1 = "mp4".
Proof. reflexivity. Qed.

Section Pipeline.
Context (env : Env) (cfg : ApiConfig).

Ltac run_pipeline :=
  unfold upload_try, Bun_write, getVideoAspectRatio, processVideoForFastStart,
    uploadVideoToS3, dbVideoToSignedVideo, Bun_spawn, console_log;
  eff_unfold.

(** A [try] block that returns has uploaded the processed file under
    the key made of the bucket name and the processed file's path,
    written that key into the record, and answers with the signed
    record. *)
Lemma upload_try_success (user : string) (video : Db.Video) (buffer : Bytes)
    (name temp : string) (w w1 : World) (p0 p1 : string) (resp : Response) :
  upload_try env cfg user video buffer name temp (w, p0) = (Return resp, (w1, p1)) →
  ∃ bucket data,
    let key := bucket_name bucket ++ "/" ++ temp ++ ".processed.mp4" in
    p1 = temp ++ ".processed.mp4"
    ∧ db w1 = Db.updateVideo (db w) (Db.set_videoURL (Some key) video)
    ∧ s3 w1 = <[key := (data, "video/mp4")]> (s3 w)
    ∧ resp = {| status := 200;
                body := Db.set_videoURL
                          (Some (generatePresignedURL env cfg key (5 * 60))) video |}.
Proof.
  run_pipeline. intros H.
  repeat (case_match; simplify_eq/=).
  - match goal with
    | Hk : negb (negb (?k =? "")%string) = true |- _ =>
        rewrite negb_involutive in Hk; apply String.eqb_eq in Hk;
        exfalso; exact (key_not_empty _ _ Hk)
    end.
  - eexists _, _. repeat split; reflexivity.
Qed.

(** A [try] block that throws has written neither the table nor the
    object store. *)
Lemma upload_try_failure (user : string) (video : Db.Video) (buffer : Bytes)
    (name temp : string) (w w1 : World) (p0 p1 : string) (e : JsError) :
  upload_try env cfg user video buffer name temp (w, p0) = (Throw e, (w1, p1)) →
  db w1 = db w ∧ s3 w1 = s3 w.
Proof.
  run_pipeline. intros H.
  repeat (case_match; simplify_eq/=); auto.
Qed.

(** The handler after its checks: the [try] block, then the
    [finally] block, whose outcome never replaces that of the [try]. *)
Lemma handler_after_checks (req : Request) (w : World) (user : string)
    (video : Db.Video) (file : File) :
  upload_checks env cfg req w = (Return (user, video, file), w) →
  let name := randomBytes_base64url env 32 ++ ".mp4" in
  let temp := path_join env (assetsRoot cfg) name in
  let tried := upload_try env cfg user video (bytes file) name temp (w, "") in
  handlerUploadVideo env cfg req w
    = (tried.1, (upload_finally env temp tried.2).2.1).
Proof.
  intros Hchecks. cbv zeta.
  apply upload_checks_pass in Hchecks as Hpass.
  destruct Hpass as (_ & _ & _ & _ & _ & _ & Htype).
  unfold handlerUploadVideo. eff_unfold. rewrite Hchecks.
  rewrite Htype, mp4_extension.
  unfold Eff.with_local, Eff.try_finally.
  destruct (upload_try _ _ _ _ _ _ _ _) as [c st]. simpl.
  pose proof (upload_finally_returns env
                (path_join env (assetsRoot cfg)
                   (randomBytes_base64url env 32 ++ ".mp4")) st) as Hret.
  destruct (upload_finally _ _ st) as [[[]|e] [w2 p2]]; simpl in *;
    [reflexivity | discriminate].
Qed.

End Pipeline.

(** ** Requests that are turned away *)

Section Rejection.
Context (env : Env) (cfg : ApiConfig) (req : Request) (w : World).

(** The checks on a request that reaches its record. *)
Lemma upload_checks_reached (user : string) (video : Db.Video) :
  reaches_record env cfg req w user video →
  upload_checks env cfg req w =
    (if negb (String.eqb (Db.userID video) user) then
       Throw (UserForbiddenError "You do not have permission to modify this video")
     else
       match formData_video req with
       | None => Throw (BadRequestError "No video file provided")
       | Some file =>
           if size file >? MAX_UPLOAD_SIZE then
             Throw (BadRequestError "Video file is too large (max 1 GB)")
           else if negb (includes ALLOWED_THUMBNAIL_TYPES (type file)) then
             Throw (BadRequestError "Unsupported thumbnail file type")
           else Return (user, video, file)
       end, w).
Proof.
  intros (videoId & token & Hid & Hne & Htok & Hjwt & Hget).
  unfold upload_checks. eff_unfold.
  assert (truthy (params_videoId req) = true) as ->
      by (apply truthy_Some; eauto).
  rewrite Hid. simpl. rewrite Htok, Hjwt, Hget.
  repeat (case_match; try reflexivity).
Qed.

(** A request with a defect does not pass the checks. *)
Lemma upload_checks_reject :
  formData_video req = None
  ∨ (∃ f, formData_video req = Some f
          ∧ (type f ≠ Spec.accepted_type ∨ size f > Spec.one_GiB))
  ∨ (∃ user video, reaches_record env cfg req w user video
                   ∧ Db.userID video ≠ user) →
  ∃ e, (upload_checks env cfg req w).1 = Throw e.
Proof.
  intros Hdefect.
  destruct (upload_checks env cfg req w) as [[[[u v] f]|e] w1] eqn:Hrun;
    [exfalso | exists e; reflexivity].
  apply upload_checks_pass in Hrun
    as (_ & (token & Htok & Hjwt) & (videoId & Hid & _ & Hget) & Hown
        & Hfile & Hsize & Htype).
  destruct Hdefect as [Hnone | [(f' & Hf' & Hbad) | (user & video & Hreach & Hne)]].
  - congruence.
  - assert (f' = f) as -> by congruence.
    destruct Hbad as [Hbad | Hbad]; [congruence | lia].
  - destruct Hreach as (videoId' & token' & Hid' & _ & Htok' & Hjwt' & Hget').
    apply Hne. congruence.
Qed.

End Rejection.

(** C6: a request that fails validation (no file part, a content type
    other than video/mp4, more than 1 GiB) or authorization (the
    authenticated user is not the record's owner) ends in a thrown
    error with the world exactly as it was: no local file, no stored
    object and no record has been written.  A request that reaches its
    record is answered with the error of the first check it fails:
    forbidden for a foreign record, then the three bad-request errors
    for the missing file, the size and the type. *)
Theorem C6_rejected_before_staging (env : Env) (cfg : ApiConfig) (req : Request)
    (w : World) :
  (formData_video req = None
   ∨ (∃ f, formData_video req = Some f
           ∧ (type f ≠ Spec.accepted_type ∨ size f > Spec.one_GiB))
   ∨ (∃ user video, reaches_record env cfg req w user video
                    ∧ Db.userID video ≠ user) →
   ∃ e, handlerUploadVideo env cfg req w = (Throw e, w))
  ∧ (∀ user video,
       reaches_record env cfg req w user video →
       (Db.userID video ≠ user →
          handlerUploadVideo env cfg req w =
            (Throw (UserForbiddenError
                      "You do not have permission to modify this video"), w))
       ∧ (Db.userID video = user → formData_video req = None →
            handlerUploadVideo env cfg req w =
              (Throw (BadRequestError "No video file provided"), w))
       ∧ (∀ f, Db.userID video = user → formData_video req = Some f →
               size f > Spec.one_GiB →
               handlerUploadVideo env cfg req w =
                 (Throw (BadRequestError "Video file is too large (max 1 GB)"), w))
       ∧ (∀ f, Db.userID video = user → formData_video req = Some f →
               size f ≤ Spec.one_GiB → type f ≠ Spec.accepted_type →
               handlerUploadVideo env cfg req w =
                 (Throw (BadRequestError "Unsupported thumbnail file type"), w))).
Proof.
  split.
  - intros Hdefect.
    destruct (upload_checks_reject env cfg req w Hdefect) as [e He].
    exists e. apply handler_stopped_by_check, He.
  - intros user video Hreach.
    pose proof (upload_checks_reached env cfg req w user video Hreach) as Hrun.
    repeat split.
    + intros Hne. apply handler_stopped_by_check. rewrite Hrun.
      apply String.eqb_neq in Hne. rewrite Hne. reflexivity.
    + intros Hown Hnone. apply handler_stopped_by_check. rewrite Hrun.
      apply String.eqb_eq in Hown. rewrite Hown, Hnone. reflexivity.
    + intros f Hown Hfile Hsize. apply handler_stopped_by_check. rewrite Hrun.
      apply String.eqb_eq in Hown. rewrite Hown, Hfile. simpl.
      rewrite MAX_UPLOAD_SIZE_is_1GiB.
      destruct (Z.gtb_spec (size f) Spec.one_GiB); [reflexivity | lia].
    + intros f Hown Hfile Hsize Htype. apply handler_stopped_by_check.
      rewrite Hrun. apply String.eqb_eq in Hown. rewrite Hown, Hfile. simpl.
      rewrite MAX_UPLOAD_SIZE_is_1GiB.
      destruct (Z.gtb_spec (size f) Spec.one_GiB); [lia|].
      destruct (includes ALLOWED_THUMBNAIL_TYPES (type f)) eqn:Hinc;
        [|reflexivity].
      apply includes_allowed in Hinc. contradiction.
Qed.

(** Bob asks to replace the video of Alice's record. *)
Lemma C6_rejected_before_staging_witness :
  handlerUploadVideo (Demo.env Demo.happy) Demo.cfg
      (Demo.request "bob" (Some Demo.mp4)) Demo.world0
    = (Throw (UserForbiddenError "You do not have permission to modify this video"),
       Demo.world0).
Proof.
  refine (proj1 (proj2 (C6_rejected_before_staging (Demo.env Demo.happy) Demo.cfg
                          (Demo.request "bob" (Some Demo.mp4)) Demo.world0)
                   "bob" Demo.boots _) _).
  - exists "v1", "bob". repeat split; try reflexivity. discriminate.
  - simpl. discriminate.
Defined.

(** ** Successful requests *)

Section Success.
Context (env : Env) (cfg : ApiConfig) (req : Request).

(** Everything a returned response tells about the run. *)
Lemma handler_success (w w' : World) (resp : Response) :
  handlerUploadVideo env cfg req w = (Return resp, w') →
  ∃ user video file bucket data,
    let key := bucket_name bucket ++ "/" ++ processed_path env cfg in
    upload_checks env cfg req w = (Return (user, video, file), w)
    ∧ db w' = Db.updateVideo (db w) (Db.set_videoURL (Some key) video)
    ∧ s3 w' = <[key := (data, "video/mp4")]> (s3 w)
    ∧ resp = {| status := 200;
                body := Db.set_videoURL
                          (Some (generatePresignedURL env cfg key (5 * 60))) video |}.
Proof.
  intros Hrun.
  pose proof (upload_checks_world env cfg req w) as Hw.
  destruct (upload_checks env cfg req w) as [[[[user video] file]|e] w0] eqn:Hc;
    simpl in Hw; subst w0.
  - rewrite (handler_after_checks env cfg req w user video file Hc) in Hrun.
    cbv zeta in Hrun.
    destruct (upload_try _ _ _ _ _ _ _ _) as [[r|e] [w1 p1]] eqn:Htry;
      simpl in Hrun; [|discriminate].
    apply upload_try_success in Htry as (bucket & data & -> & Hdb & Hs3 & ->).
    injection Hrun as <- <-.
    destruct (upload_finally_frame env
                (path_join env (assetsRoot cfg)
                   (randomBytes_base64url env 32 ++ ".mp4"))
                w1 (path_join env (assetsRoot cfg)
                      (randomBytes_base64url env 32 ++ ".mp4") ++ ".processed.mp4"))
      as [Hs3' Hdb'].
    exists user, video, file, bucket, data. cbv zeta in *.
    unfold processed_path, staged_path. rewrite Hs3', Hdb', Hdb, Hs3. auto.
  - rewrite (handler_stopped_by_check env cfg req w e) in Hrun
      by (rewrite Hc; reflexivity).
    discriminate.
Qed.

End Success.

(** C7: after a successful request the record in the table holds the
    plain object key under which the file was uploaded, and the record
    in the response carries the URL signed from that key for exactly
    300 seconds; the table never receives the signed URL: the video
    URL read back from the table is the key, the one in the response
    is the signed URL, and every row of the table either holds the key
    or was there before. *)
Theorem C7_key_persisted_signed_url_returned (env : Env) (cfg : ApiConfig)
    (req : Request) (w w' : World) (resp : Response) :
  handlerUploadVideo env cfg req w = (Return resp, w') →
  ∃ videoId video key,
    params_videoId req = Some videoId
    ∧ Db.getVideo (db w) videoId = Some video
    ∧ is_Some (s3 w' !! key)
    ∧ db w' = Db.updateVideo (db w) (Db.set_videoURL (Some key) video)
    ∧ Db.getVideo (db w') videoId = Some (Db.set_videoURL (Some key) video)
    ∧ status resp = 200
    ∧ body resp = Db.set_videoURL
                    (Some (generatePresignedURL env cfg key Spec.ttl_seconds)) video
    ∧ (∃ stored, Db.getVideo (db w') videoId = Some stored
                 ∧ Db.videoURL stored = Some key)
    ∧ Db.videoURL (body resp)
        = Some (generatePresignedURL env cfg key Spec.ttl_seconds)
    ∧ (∀ row, row ∈ db w' →
         Db.videoURL row = Some key ∨ row ∈ db w).
Proof.
  intros Hrun.
  apply handler_success in Hrun
    as (user & video & file & bucket & data & Hchecks & Hdb & Hs3 & ->).
  apply upload_checks_pass in Hchecks
    as (_ & _ & (videoId & Hid & _ & Hget) & _).
  exists videoId, video, (bucket_name bucket ++ "/" ++ processed_path env cfg).
  assert (Db.getVideo (db w') videoId
          = Some (Db.set_videoURL
                    (Some (bucket_name bucket ++ "/" ++ processed_path env cfg))
                    video)) as Hstored.
  { rewrite Hdb. apply (getVideo_updateVideo_same _ _ video); [exact Hget|].
    simpl. apply (getVideo_id _ _ _ Hget). }
  repeat split; try assumption; try reflexivity.
  - rewrite Hs3, lookup_insert_eq. eauto.
  - eexists. split; [exact Hstored | reflexivity].
  - intros row Hrow. rewrite Hdb in Hrow. unfold Db.updateVideo in Hrow.
    apply list_elem_of_fmap in Hrow as (r & -> & Hr).
    destruct (String.eqb (Db.id r) _); [left; reflexivity | right; exact Hr].
Qed.

(** C10: after a successful request the record handed to the table,
    and read back from it, differs from the record fetched at the
    start in its video URL only: id, owner, thumbnail URL and the
    remaining columns are the same, and so is every other record of
    the table. *)
Theorem C10_only_video_url_changes (env : Env) (cfg : ApiConfig)
    (req : Request) (w w' : World) (resp : Response) :
  handlerUploadVideo env cfg req w = (Return resp, w') →
  ∃ videoId before after,
    params_videoId req = Some videoId
    ∧ Db.getVideo (db w) videoId = Some before
    ∧ db w' = Db.updateVideo (db w) after
    ∧ Db.getVideo (db w') videoId = Some after
    ∧ Db.id after = Db.id before
    ∧ Db.userID after = Db.userID before
    ∧ Db.thumbnailURL after = Db.thumbnailURL before
    ∧ Db.columns after = Db.columns before
    ∧ after = Db.set_videoURL (Db.videoURL after) before
    ∧ ∀ j, j ≠ videoId → Db.getVideo (db w') j = Db.getVideo (db w) j.
Proof.
  intros Hrun.
  apply handler_success in Hrun
    as (user & video & file & bucket & data & Hchecks & Hdb & _ & _).
  apply upload_checks_pass in Hchecks
    as (_ & _ & (videoId & Hid & _ & Hget) & _).
  pose proof (getVideo_id _ _ _ Hget) as Hvid.
  exists videoId, video,
    (Db.set_videoURL
       (Some (bucket_name bucket ++ "/" ++ processed_path env cfg)) video).
  repeat split; try assumption; try reflexivity.
  - rewrite Hdb. apply (getVideo_updateVideo_same _ _ video); assumption.
  - intros j Hj. rewrite Hdb. apply getVideo_updateVideo_other.
    simpl. congruence.
Qed.

Lemma run_eq {A S : Type} (run : Completion A * S) (c : Completion A) :
  run.1 = c → run = (c, run.2).
Proof. destruct run as [c' s]. simpl. intros ->. reflexivity. Qed.

(** Alice uploads a 1920x1080 video to her own record. *)
Lemma C7_key_persisted_signed_url_returned_witness :
  let run := handlerUploadVideo (Demo.env Demo.happy) Demo.cfg
               (Demo.request "alice" (Some Demo.mp4)) Demo.world0 in
  ∃ videoId video key,
    Some "v1" = Some videoId
    ∧ Db.getVideo [Demo.boots] videoId = Some video
    ∧ is_Some (s3 run.2 !! key)
    ∧ db run.2 = Db.updateVideo [Demo.boots] (Db.set_videoURL (Some key) video)
    ∧ Db.getVideo (db run.2) videoId = Some (Db.set_videoURL (Some key) video)
    ∧ 200 = 200
    ∧ Db.set_videoURL
        (Some "https://tubely.s3.eu-west-1.amazonaws.com/landscape/assets/q0Zr3vXw.mp4.processed.mp4?X-Amz-Expires=300")
        Demo.boots
      = Db.set_videoURL
          (Some (generatePresignedURL (Demo.env Demo.happy) Demo.cfg key
                   Spec.ttl_seconds)) video
    ∧ (∃ stored, Db.getVideo (db run.2) videoId = Some stored
                 ∧ Db.videoURL stored = Some key)
    ∧ Some "https://tubely.s3.eu-west-1.amazonaws.com/landscape/assets/q0Zr3vXw.mp4.processed.mp4?X-Amz-Expires=300"
        = Some (generatePresignedURL (Demo.env Demo.happy) Demo.cfg key
                  Spec.ttl_seconds)
    ∧ (∀ row, row ∈ db run.2 →
         Db.videoURL row = Some key ∨ row ∈ [Demo.boots]).
Proof.
  cbv zeta.
  apply (C7_key_persisted_signed_url_returned (Demo.env Demo.happy) Demo.cfg
           (Demo.request "alice" (Some Demo.mp4)) Demo.world0 _
           {| status := 200;
              body := Db.set_videoURL
                        (Some "https://tubely.s3.eu-west-1.amazonaws.com/landscape/assets/q0Zr3vXw.mp4.processed.mp4?X-Amz-Expires=300")
                        Demo.boots |}).
  apply run_eq. vm_compute. reflexivity.
Defined.

(** The same upload, read for what it leaves alone. *)
Lemma C10_only_video_url_changes_witness :
  let run := handlerUploadVideo (Demo.env Demo.happy) Demo.cfg
               (Demo.request "alice" (Some Demo.mp4)) Demo.world0 in
  ∃ videoId before after,
    Some "v1" = Some videoId
    ∧ Db.getVideo [Demo.boots] videoId = Some before
    ∧ db run.2 = Db.updateVideo [Demo.boots] after
    ∧ Db.getVideo (db run.2) videoId = Some after
    ∧ Db.id after = Db.id before
    ∧ Db.userID after = Db.userID before
    ∧ Db.thumbnailURL after = Db.thumbnailURL before
    ∧ Db.columns after = Db.columns before
    ∧ after = Db.set_videoURL (Db.videoURL after) before
    ∧ ∀ j, j ≠ videoId → Db.getVideo (db run.2) j = Db.getVideo [Demo.boots] j.
Proof.
  cbv zeta.
  apply (C10_only_video_url_changes (Demo.env Demo.happy) Demo.cfg
           (Demo.request "alice" (Some Demo.mp4)) Demo.world0 _
           {| status := 200;
              body := Db.set_videoURL
                        (Some "https://tubely.s3.eu-west-1.amazonaws.com/landscape/assets/q0Zr3vXw.mp4.processed.mp4?X-Amz-Expires=300")
                        Demo.boots |}).
  apply run_eq. vm_compute. reflexivity.
Defined.

(** C9: when the [try] block of a request fails with an error, that
    error is what the handler throws, whatever happens during cleanup;
    and when cleanup itself fails, its error is written to the console
    and goes no further. *)
Theorem C9_cleanup_never_masks (env : Env) (cfg : ApiConfig) (req : Request)
    (w : World) (user : string) (video : Db.Video) (file : File) (e : JsError) :
  let tried :=
    upload_try env cfg user video (bytes file)
      (randomBytes_base64url env 32 ++ ".mp4") (staged_path env cfg) (w, "") in
  (upload_checks env cfg req w).1 = Return (user, video, file) →
  tried.1 = Throw e →
  (handlerUploadVideo env cfg req w).1 = Throw e
  ∧ ∀ err, (release_scratch env (staged_path env cfg) tried.2).1 = Throw err →
      console (handlerUploadVideo env cfg req w).2
        = (console (release_scratch env (staged_path env cfg) tried.2).2.1
             ++ [("Failed to delete temp video file: " ++ show_error err)%string])%list.
Proof.
  cbv zeta. intros Hchecks Htry.
  apply run_eq in Hchecks. rewrite upload_checks_world in Hchecks.
  rewrite (handler_after_checks env cfg req w user video file Hchecks).
  cbv zeta. fold (staged_path env cfg). split.
  - simpl. exact Htry.
  - intros err Hrel. apply run_eq in Hrel.
    simpl. rewrite (upload_finally_caught env _ _ _ _ Hrel). reflexivity.
Qed.

(** The upload fails, and then the staged file cannot be deleted. *)
Lemma C9_cleanup_never_masks_witness :
  (handlerUploadVideo (Demo.env Demo.stuck_temp) Demo.cfg
     (Demo.request "alice" (Some Demo.mp4)) Demo.world0).1
    = Throw (Error "S3 upload failed")
  ∧ console (handlerUploadVideo (Demo.env Demo.stuck_temp) Demo.cfg
               (Demo.request "alice" (Some Demo.mp4)) Demo.world0).2
    = ["uploading video landscape/q0Zr3vXw.mp4 by user alice";
       "Failed to delete temp video file: SystemError: EPERM: assets/q0Zr3vXw.mp4"].
Proof.
  pose proof (C9_cleanup_never_masks (Demo.env Demo.stuck_temp) Demo.cfg
                (Demo.request "alice" (Some Demo.mp4)) Demo.world0
                "alice" Demo.boots Demo.mp4 (Error "S3 upload failed")) as H.
  cbv zeta in H.
  destruct H as [Hthrow Hlog]; [vm_compute; reflexivity | vm_compute; reflexivity |].
  split; [exact Hthrow|].
  rewrite (Hlog (SystemError "EPERM: assets/q0Zr3vXw.mp4"));
    vm_compute; reflexivity.
Defined.

(** ** Runs in which the handler departs from the spec *)

(** C1: Alice's successful upload of a 16:9 video with the random name
    [q0Zr3vXw] into the assets root [assets].  The spec's key is
    [landscape/q0Zr3vXw.mp4]; the handler stores the object, and
    records it, under the path of the processed local file,
    [landscape/assets/q0Zr3vXw.mp4.processed.mp4], while its own
    console line announces [landscape/q0Zr3vXw.mp4]. *)
Theorem C1_object_key_is_local_path :
  let run := handlerUploadVideo (Demo.env Demo.happy) Demo.cfg
               (Demo.request "alice" (Some Demo.mp4)) Demo.world0 in
  is_throw run.1 = false
  ∧ Spec.object_key landscape (randomBytes_base64url (Demo.env Demo.happy) 32)
      = "landscape/q0Zr3vXw.mp4"
  ∧ s3 run.2 !! "landscape/q0Zr3vXw.mp4" = None
  ∧ fst <$> map_to_list (s3 run.2)
      = ["landscape/assets/q0Zr3vXw.mp4.processed.mp4"]
  ∧ Db.videoURL <$> db run.2
      = [Some "landscape/assets/q0Zr3vXw.mp4.processed.mp4"]
  ∧ List.hd "" (console run.2)
      = "uploading video landscape/q0Zr3vXw.mp4 by user alice".
Proof. cbv zeta. repeat split; vm_compute; reflexivity. Qed.

(** On every successful run the key is the bucket name followed by the
    path of the processed file. *)
Lemma uploaded_key_shape (env : Env) (cfg : ApiConfig) (req : Request)
    (w w' : World) (resp : Response) :
  handlerUploadVideo env cfg req w = (Return resp, w') →
  ∃ bucket data,
    s3 w' = <[bucket_name bucket ++ "/" ++ processed_path env cfg
                := (data, "video/mp4")]> (s3 w).
Proof.
  intros Hrun.
  apply handler_success in Hrun as (_ & _ & _ & bucket & data & _ & _ & Hs3 & _).
  eauto.
Qed.

(** C3: ffmpeg exits with 1 after it has created its output file.  The
    error is thrown on, the record keeps its stored reference and the
    staged file is deleted; but the processed file stays on disk,
    because the variable the cleanup reads was never assigned. *)
Theorem C3_remux_failure_leaks_processed_file :
  let run := handlerUploadVideo (Demo.env Demo.remux_breaks) Demo.cfg
               (Demo.request "alice" (Some Demo.mp4)) Demo.world0 in
  run.1 = Throw (Error "ffprobe failed with exit code 1: Conversion failed!")
  ∧ db run.2 = db Demo.world0
  ∧ fs run.2 !! staged_path (Demo.env Demo.remux_breaks) Demo.cfg = None
  ∧ processed_path (Demo.env Demo.remux_breaks) Demo.cfg
      = "assets/q0Zr3vXw.mp4.processed.mp4"
  ∧ is_Some (fs run.2 !! "assets/q0Zr3vXw.mp4.processed.mp4")
  ∧ delete_failure (Demo.env Demo.remux_breaks) "assets/q0Zr3vXw.mp4.processed.mp4"
      = None
  ∧ console run.2 = ["uploading video landscape/q0Zr3vXw.mp4 by user alice";
                     "Deleted temp video file"].
Proof.
  cbv zeta. repeat split; try (vm_compute; reflexivity).
  vm_compute. eauto.
Qed.

(** When the remux fails, the cleanup still sees the initial, empty
    value of [processedFilepath]. *)
Lemma remux_failure_keeps_local (env : Env) (w w1 : World) (path p p1 : string)
    (e : JsError) :
  (Eff.bind (Eff.outer (processVideoForFastStart env path))
     (λ out, Eff.assign_local out)) (w, p) = (Throw e, (w1, p1)) →
  p1 = p.
Proof.
  unfold processVideoForFastStart, Bun_spawn. eff_unfold. intros H.
  repeat (case_match; simplify_eq/=); reflexivity.
Qed.

(** C4: the upload fails, and the staged file cannot be deleted.  The
    failed deletion is written to the console and not thrown, but it
    ends the cleanup: the processed file, whose deletion would have
    gone through, is still on disk. *)
Theorem C4_cleanup_short_circuits :
  let run := handlerUploadVideo (Demo.env Demo.stuck_temp) Demo.cfg
               (Demo.request "alice" (Some Demo.mp4)) Demo.world0 in
  run.1 = Throw (Error "S3 upload failed")
  ∧ delete_failure (Demo.env Demo.stuck_temp) "assets/q0Zr3vXw.mp4"
      = Some (SystemError "EPERM: assets/q0Zr3vXw.mp4")
  ∧ delete_failure (Demo.env Demo.stuck_temp) "assets/q0Zr3vXw.mp4.processed.mp4"
      = None
  ∧ is_Some (fs run.2 !! "assets/q0Zr3vXw.mp4.processed.mp4")
  ∧ console run.2
      = ["uploading video landscape/q0Zr3vXw.mp4 by user alice";
         "Failed to delete temp video file: SystemError: EPERM: assets/q0Zr3vXw.mp4"].
Proof.
  cbv zeta. repeat split; try (vm_compute; reflexivity).
  vm_compute. eauto.
Qed.

(** ** More about the handler: failures, cleanup and checks *)

Lemma staged_is_not_processed (s : string) : s ≠ s ++ ".processed.mp4".
Proof.
  induction s as [|a s IH]; simpl; [discriminate|].
  intros [= H]. exact (IH H).
Qed.

Section ScratchFiles.
Context (env : Env).

Lemma not_is_Some_None {A} (o : option A) :
  bool_decide (is_Some o) = false → o = None.
Proof.
  intros H. apply bool_decide_eq_false in H.
  destruct o; [exfalso; apply H; eauto | reflexivity].
Qed.

Ltac gone :=
  first [ apply lookup_delete_eq
        | assumption
        | apply lookup_delete_None; right; gone ].

Ltac run_finally :=
  unfold upload_finally, release_scratch, Bun_file_exists, Bun_file_delete,
    console_log;
  eff_unfold.

(** Whatever happens to the processed file, a staged file whose
    deletion goes through is gone after the [finally] block. *)
Lemma upload_finally_removes_staged (temp : string) (w : World) (p : string) :
  delete_failure env temp = None →
  fs (upload_finally env temp (w, p)).2.1 !! temp = None.
Proof.
  intros Hdel. run_finally. rewrite Hdel.
  destruct (bool_decide (is_Some (fs w !! temp))) eqn:Hex; simpl.
  - destruct (bool_decide (is_Some (delete temp (fs w) !! p))); simpl;
      [destruct (delete_failure env p); simpl|]; gone.
  - apply not_is_Some_None in Hex.
    destruct (bool_decide (is_Some (fs w !! p))); simpl;
      [destruct (delete_failure env p); simpl|]; gone.
Qed.

(** When both deletions go through, both files are gone. *)
Lemma upload_finally_removes_both (temp : string) (w : World) (p : string) :
  delete_failure env temp = None → delete_failure env p = None →
  fs (upload_finally env temp (w, p)).2.1 !! p = None.
Proof.
  intros Hdel Hdelp. run_finally. rewrite Hdel.
  destruct (bool_decide (is_Some (fs w !! temp))) eqn:Hex; simpl.
  - destruct (bool_decide (is_Some (delete temp (fs w) !! p))) eqn:Hp; simpl.
    + rewrite Hdelp. simpl. gone.
    + apply not_is_Some_None in Hp. exact Hp.
  - destruct (bool_decide (is_Some (fs w !! p))) eqn:Hp; simpl.
    + rewrite Hdelp. simpl. gone.
    + apply not_is_Some_None in Hp. exact Hp.
Qed.

End ScratchFiles.

(** X1: a request that ends in a thrown error, at whatever step, has
    written neither the videos table nor the object store. *)
Theorem failed_upload_writes_nothing (env : Env) (cfg : ApiConfig)
    (req : Request) (w w' : World) (e : JsError) :
  handlerUploadVideo env cfg req w = (Throw e, w') →
  db w' = db w ∧ s3 w' = s3 w.
Proof.
  intros Hrun.
  pose proof (upload_checks_world env cfg req w) as Hw.
  destruct (upload_checks env cfg req w) as [[[[user video] file]|e0] w0] eqn:Hc;
    simpl in Hw; subst w0.
  - rewrite (handler_after_checks env cfg req w user video file Hc) in Hrun.
    cbv zeta in Hrun.
    destruct (upload_try _ _ _ _ _ _ _ _) as [[r|e1] [w1 p1]] eqn:Htry;
      simpl in Hrun; [discriminate|].
    apply upload_try_failure in Htry as [Hdb Hs3].
    injection Hrun as _ <-.
    destruct (upload_finally_frame env
                (path_join env (assetsRoot cfg)
                   (randomBytes_base64url env 32 ++ ".mp4")) w1 p1) as [Hs3' Hdb'].
    rewrite Hs3', Hdb'. auto.
  - rewrite (handler_stopped_by_check env cfg req w e0) in Hrun
      by (rewrite Hc; reflexivity).
    injection Hrun as _ <-. auto.
Qed.

(** ffmpeg fails: the record and the object store are as before. *)
Lemma failed_upload_writes_nothing_witness :
  let run := handlerUploadVideo (Demo.env Demo.remux_breaks) Demo.cfg
               (Demo.request "alice" (Some Demo.mp4)) Demo.world0 in
  db run.2 = [Demo.boots] ∧ s3 run.2 = ∅.
Proof.
  cbv zeta.
  apply (failed_upload_writes_nothing (Demo.env Demo.remux_breaks) Demo.cfg
           (Demo.request "alice" (Some Demo.mp4)) Demo.world0 _
           (Error "ffprobe failed with exit code 1: Conversion failed!")).
  apply run_eq. vm_compute. reflexivity.
Defined.

(** X2: once a request has passed the checks, the staged file is gone
    when the handler ends, whether it returns or throws, provided the
    deletion of that file does not fail. *)
Theorem staged_file_removed_on_every_exit (env : Env) (cfg : ApiConfig)
    (req : Request) (w : World) (user : string) (video : Db.Video) (file : File) :
  (upload_checks env cfg req w).1 = Return (user, video, file) →
  delete_failure env (staged_path env cfg) = None →
  fs (handlerUploadVideo env cfg req w).2 !! staged_path env cfg = None.
Proof.
  intros Hchecks Hdel.
  apply run_eq in Hchecks. rewrite upload_checks_world in Hchecks.
  rewrite (handler_after_checks env cfg req w user video file Hchecks).
  cbv zeta. fold (staged_path env cfg). simpl.
  destruct (upload_try _ _ _ _ _ _ _ _) as [c [w1 p1]]. simpl.
  apply upload_finally_removes_staged, Hdel.
Qed.

(** The upload fails; the staged file is deleted all the same. *)
Lemma staged_file_removed_on_every_exit_witness :
  fs (handlerUploadVideo (Demo.env Cases.upload_breaks)
        Demo.cfg (Demo.request "alice" (Some Demo.mp4)) Demo.world0).2
    !! "assets/q0Zr3vXw.mp4" = None.
Proof.
  apply (staged_file_removed_on_every_exit (Demo.env Cases.upload_breaks) Demo.cfg
           (Demo.request "alice" (Some Demo.mp4)) Demo.world0
           "alice" Demo.boots Demo.mp4); vm_compute; reflexivity.
Defined.

(** X3: after a request that returns a response, neither the staged
    file nor the processed file is left on disk, provided neither
    deletion fails. *)
Theorem success_removes_both_scratch_files (env : Env) (cfg : ApiConfig)
    (req : Request) (w w' : World) (resp : Response) :
  handlerUploadVideo env cfg req w = (Return resp, w') →
  delete_failure env (staged_path env cfg) = None →
  delete_failure env (processed_path env cfg) = None →
  fs w' !! staged_path env cfg = None ∧ fs w' !! processed_path env cfg = None.
Proof.
  intros Hrun Hdel Hdelp.
  pose proof (upload_checks_world env cfg req w) as Hw.
  destruct (upload_checks env cfg req w) as [[[[user video] file]|e0] w0] eqn:Hc;
    simpl in Hw; subst w0.
  - rewrite (handler_after_checks env cfg req w user video file Hc) in Hrun.
    cbv zeta in Hrun. fold (staged_path env cfg) in Hrun.
    destruct (upload_try _ _ _ _ _ _ _ _) as [[r|e1] [w1 p1]] eqn:Htry;
      simpl in Hrun; [|discriminate].
    apply upload_try_success in Htry as (_ & _ & -> & _).
    fold (processed_path env cfg) in Hrun.
    injection Hrun as _ <-. split.
    + apply upload_finally_removes_staged, Hdel.
    + apply upload_finally_removes_both; assumption.
  - rewrite (handler_stopped_by_check env cfg req w e0) in Hrun
      by (rewrite Hc; reflexivity).
    discriminate.
Qed.

(** Alice's upload leaves no scratch file behind. *)
Lemma success_removes_both_scratch_files_witness :
  let run := handlerUploadVideo (Demo.env Demo.happy) Demo.cfg
               (Demo.request "alice" (Some Demo.mp4)) Demo.world0 in
  fs run.2 !! "assets/q0Zr3vXw.mp4" = None
  ∧ fs run.2 !! "assets/q0Zr3vXw.mp4.processed.mp4" = None.
Proof.
  cbv zeta.
  apply (success_removes_both_scratch_files (Demo.env Demo.happy) Demo.cfg
           (Demo.request "alice" (Some Demo.mp4)) Demo.world0 _
           {| status := 200;
              body := Db.set_videoURL
                        (Some "https://tubely.s3.eu-west-1.amazonaws.com/landscape/assets/q0Zr3vXw.mp4.processed.mp4?X-Amz-Expires=300")
                        Demo.boots |}).
  - apply run_eq. vm_compute. reflexivity.
  - reflexivity.
  - reflexivity.
Defined.

(** X4: the errors that come before the record is read, in the order
    the handler raises them: a missing or empty [videoId] is a bad
    request whatever the token; a token that cannot be read or
    validated throws the collaborator's error before the table is
    consulted; an unknown record is not found.  In each case the world
    is left as it was. *)
Theorem errors_before_the_record (env : Env) (cfg : ApiConfig) (req : Request)
    (w : World) :
  (params_videoId req = None ∨ params_videoId req = Some "" →
     handlerUploadVideo env cfg req w
       = (Throw (BadRequestError "Invalid video ID"), w))
  ∧ (∀ videoId e,
       params_videoId req = Some videoId → videoId ≠ "" →
       getBearerToken env (headers req) = Throw e →
       handlerUploadVideo env cfg req w = (Throw e, w))
  ∧ (∀ videoId token e,
       params_videoId req = Some videoId → videoId ≠ "" →
       getBearerToken env (headers req) = Return token →
       validateJWT env token (jwtSecret cfg) = Throw e →
       handlerUploadVideo env cfg req w = (Throw e, w))
  ∧ (∀ videoId token user,
       params_videoId req = Some videoId → videoId ≠ "" →
       getBearerToken env (headers req) = Return token →
       validateJWT env token (jwtSecret cfg) = Return user →
       Db.getVideo (db w) videoId = None →
       handlerUploadVideo env cfg req w
         = (Throw (NotFoundError "Couldn't find video"), w)).
Proof.
  repeat split.
  - intros Hid. apply truthy_false in Hid.
    apply handler_stopped_by_check. unfold upload_checks. eff_unfold.
    rewrite Hid. reflexivity.
  - intros videoId e Hid Hne Htok.
    apply handler_stopped_by_check. unfold upload_checks. eff_unfold.
    assert (truthy (params_videoId req) = true) as ->
        by (apply truthy_Some; eauto).
    simpl. rewrite Htok. reflexivity.
  - intros videoId token e Hid Hne Htok Hjwt.
    apply handler_stopped_by_check. unfold upload_checks. eff_unfold.
    assert (truthy (params_videoId req) = true) as ->
        by (apply truthy_Some; eauto).
    simpl. rewrite Htok, Hjwt. reflexivity.
  - intros videoId token user Hid Hne Htok Hjwt Hget.
    apply handler_stopped_by_check. unfold upload_checks. eff_unfold.
    assert (truthy (params_videoId req) = true) as ->
        by (apply truthy_Some; eauto).
    rewrite Hid. simpl. rewrite Htok, Hjwt, Hget. reflexivity.
Qed.

(** A request without a video id, and one for a record that does not exist. *)
Lemma errors_before_the_record_witness :
  handlerUploadVideo (Demo.env Demo.happy) Demo.cfg Cases.anonymous_request
      Demo.world0
    = (Throw (BadRequestError "Invalid video ID"), Demo.world0)
  ∧ handlerUploadVideo (Demo.env Demo.happy) Demo.cfg
      (Demo.request "alice" (Some Demo.mp4)) (set_db [] Demo.world0)
    = (Throw (NotFoundError "Couldn't find video"), set_db [] Demo.world0).
Proof.
  split.
  - apply (proj1 (errors_before_the_record (Demo.env Demo.happy) Demo.cfg
                    Cases.anonymous_request Demo.world0)).
    left. reflexivity.
  - apply (proj2 (proj2 (proj2
             (errors_before_the_record (Demo.env Demo.happy) Demo.cfg
                (Demo.request "alice" (Some Demo.mp4)) (set_db [] Demo.world0))))
             "v1" "alice" "alice"); try reflexivity.
    discriminate.
Defined.

(** A request with every property the checks ask for passes them. *)
Lemma upload_checks_accept (env : Env) (cfg : ApiConfig) (req : Request)
    (w : World) (user : string) (video : Db.Video) (file : File) :
  reaches_record env cfg req w user video →
  Db.userID video = user →
  formData_video req = Some file →
  size file ≤ Spec.one_GiB →
  type file = Spec.accepted_type →
  upload_checks env cfg req w = (Return (user, video, file), w).
Proof.
  intros Hreach Hown Hfile Hsize Htype.
  rewrite (upload_checks_reached env cfg req w user video Hreach).
  apply String.eqb_eq in Hown. rewrite Hown, Hfile. simpl.
  destruct (Z.gtb_spec (size file) MAX_UPLOAD_SIZE) as [Hgt|_].
  - rewrite MAX_UPLOAD_SIZE_is_1GiB in Hgt. lia.
  - assert (includes ALLOWED_THUMBNAIL_TYPES (type file) = true) as ->
        by (apply includes_allowed; exact Htype).
    reflexivity.
Qed.

(** X5: the checks let a request through exactly when it names a
    record, carries a valid token of the record's owner, and has a
    file part of type video/mp4 of at most 1073741824 bytes: a file of
    exactly 1 GiB is accepted. *)
Theorem checks_pass_iff (env : Env) (cfg : ApiConfig) (req : Request)
    (w : World) (user : string) (video : Db.Video) (file : File) :
  upload_checks env cfg req w = (Return (user, video, file), w)
  ↔ reaches_record env cfg req w user video
    ∧ Db.userID video = user
    ∧ formData_video req = Some file
    ∧ size file ≤ 1073741824
    ∧ type file = "video/mp4".
Proof.
  split.
  - intros H. apply upload_checks_pass in H
      as (_ & (token & Htok & Hjwt) & (videoId & Hid & Hne & Hget) & Hown
          & Hfile & Hsize & Htype).
    repeat split; try assumption.
    exists videoId, token. auto.
  - intros (Hreach & Hown & Hfile & Hsize & Htype).
    apply upload_checks_accept; assumption.
Qed.

(** Alice's file of exactly 1 GiB passes the checks. *)
Lemma checks_pass_iff_witness :
  upload_checks (Demo.env Demo.happy) Demo.cfg
      (Demo.request "alice" (Some Cases.one_GiB_file)) Demo.world0
    = (Return ("alice", Demo.boots, Cases.one_GiB_file), Demo.world0).
Proof.
  apply (proj2 (checks_pass_iff (Demo.env Demo.happy) Demo.cfg
                  (Demo.request "alice" (Some Cases.one_GiB_file)) Demo.world0
                  "alice" Demo.boots Cases.one_GiB_file)).
  repeat split.
  - exists "v1", "alice". repeat split; try reflexivity. discriminate.
  - simpl. lia.
Defined.

(** ** The external steps and signing, on their own *)

(** X6: the remux returns exactly when ffmpeg exits with 0, and then
    it returns the input path with [.processed.mp4] appended: a path
    other than the input, and the one ffmpeg was given as its output.
    After any other exit it throws an error whose message starts with
    "ffprobe failed with exit code" and carries the code and the
    captured stderr.  Neither way does it write the table, the object
    store or the console. *)
Theorem remux_outcome (env : Env) (input : string) (w : World) :
  let output := input ++ ".processed.mp4" in
  let exited := (spawn env (ffmpeg_argv input output) (fs w)).1 in
  let run := processVideoForFastStart env input w in
  (run.1 = Return output ↔ exitCode exited = 0)
  ∧ (exitCode exited ≠ 0 →
       run.1 = Throw (Error ("ffprobe failed with exit code "
                               ++ JsNum.show (exitCode exited) ++ ": "
                               ++ stderr exited)))
  ∧ output ≠ input
  ∧ List.last (ffmpeg_argv input output) "" = output
  ∧ fs run.2 = (spawn env (ffmpeg_argv input output) (fs w)).2
  ∧ s3 run.2 = s3 w ∧ db run.2 = db w ∧ console run.2 = console w.
Proof.
  cbv zeta. unfold processVideoForFastStart, Bun_spawn. eff_unfold.
  destruct (spawn env _ (fs w)) as [r files]. simpl.
  destruct (Z.eqb_spec (exitCode r) 0) as [H0|H0]; simpl.
  - repeat split; try reflexivity; try congruence.
    intros H. symmetry in H. exact (staged_is_not_processed _ H).
  - repeat split; try reflexivity; try congruence.
    intros H. symmetry in H. exact (staged_is_not_processed _ H).
Qed.

(** ffmpeg exits with 1. *)
Lemma remux_outcome_witness :
  (processVideoForFastStart (Demo.env Demo.remux_breaks) "assets/q0Zr3vXw.mp4"
     Demo.world0).1
    = Throw (Error "ffprobe failed with exit code 1: Conversion failed!").
Proof.
  refine (proj1 (proj2 (remux_outcome (Demo.env Demo.remux_breaks)
                          "assets/q0Zr3vXw.mp4" Demo.world0)) _).
  vm_compute. discriminate.
Defined.

(** X7: signing never throws, changes no field of the record other
    than the video URL, and writes neither files, objects nor the
    table; it logs the key exactly when it signs. *)
Theorem signing_changes_only_the_url (env : Env) (cfg : ApiConfig)
    (video : Db.Video) (w : World) :
  ∃ signed w',
    dbVideoToSignedVideo env cfg video w = (Return signed, w')
    ∧ signed = Db.set_videoURL (Db.videoURL signed) video
    ∧ fs w' = fs w ∧ s3 w' = s3 w ∧ db w' = db w
    ∧ console w' =
        (console w ++ (if truthy (Db.videoURL video)
                       then [("signing key: " ++ default "" (Db.videoURL video))%string]
                       else []))%list.
Proof.
  unfold dbVideoToSignedVideo, console_log. eff_unfold.
  destruct (truthy (Db.videoURL video)); simpl.
  - eexists _, _. repeat split.
  - exists video, w. repeat split.
    + destruct video; reflexivity.
    + rewrite app_nil_r. reflexivity.
Qed.

(** ** The handler without probe and remux *)

Section DirectUpload.
Context (env : Env) (cfg : ApiConfig).

(** The name generated for the object, and the path of its staged copy. *)
Let key : string := randomBytes_base64url env 32 ++ ".mp4".
Let temp : string := path_join env (assetsRoot cfg) key.

Ltac run_direct :=
  unfold Direct.try_block, Direct.finally_block, Direct.release, Bun_write,
    uploadVideoToS3, Bun_file_exists, Bun_file_delete, console_log;
  eff_unfold.

(** The checks write at most a console line. *)
Lemma direct_checks_frame (req : Request) (w : World) :
  let w' := (Direct.checks env cfg req w).2 in
  fs w' = fs w ∧ s3 w' = s3 w ∧ db w' = db w.
Proof.
  cbv zeta. unfold Direct.checks, console_log. eff_unfold.
  repeat (case_match; simplify_eq/=); auto.
Qed.

(** What is known once they have passed. *)
Lemma direct_checks_pass (req : Request) (w w' : World) (user : string)
    (video : Db.Video) (file : File) :
  Direct.checks env cfg req w = (Return (user, video, file), w') →
  reaches_record env cfg req w user video
  ∧ Db.userID video = user
  ∧ formData_video req = Some file
  ∧ size file ≤ Spec.one_GiB
  ∧ type file = Spec.accepted_type.
Proof.
  unfold Direct.checks, console_log. eff_unfold.
  destruct (truthy (params_videoId req)) eqn:Hid; simpl; [|discriminate].
  apply truthy_Some in Hid as (videoId & Hid & Hne). rewrite Hid. simpl.
  destruct (getBearerToken env (headers req)) as [token|e] eqn:Htok;
    [|discriminate].
  destruct (validateJWT env token (jwtSecret cfg)) as [u|e] eqn:Hjwt;
    [|discriminate].
  destruct (Db.getVideo (db w) videoId) as [v|] eqn:Hget; [|discriminate].
  destruct (String.eqb_spec (Db.userID v) u) as [Hown|];
    cbn [negb]; [|discriminate].
  destruct (formData_video req) as [f|]; [|discriminate].
  destruct (Z.gtb_spec (size f) MAX_UPLOAD_SIZE) as [|Hsize]; [discriminate|].
  destruct (includes ALLOWED_THUMBNAIL_TYPES (type f)) eqn:Htype;
    cbn [negb]; [|discriminate].
  apply includes_allowed in Htype.
  intros [= -> -> -> _].
  rewrite MAX_UPLOAD_SIZE_is_1GiB in Hsize.
  repeat split; try assumption. exists videoId, token. auto.
Qed.

(** The [finally] block never throws and writes only files and console. *)
Lemma direct_finally_safe (path : string) (w : World) :
  let run := Direct.finally_block env path w in
  run.1 = Return () ∧ s3 run.2 = s3 w ∧ db run.2 = db w
  ∧ (delete_failure env path = None → fs run.2 !! path = None).
Proof.
  cbv zeta. run_direct.
  destruct (bool_decide (is_Some (fs w !! path))) eqn:Hex; simpl.
  - destruct (delete_failure env path); simpl;
      repeat split; try discriminate. intros _. apply lookup_delete_eq.
  - repeat split. intros _. apply bool_decide_eq_false in Hex.
    destruct (fs w !! path); [exfalso; apply Hex; eauto | reflexivity].
Qed.

(** A [try] block that returns. *)
Lemma direct_try_success (video : Db.Video) (buffer : Bytes) (k path : string)
    (w w1 : World) (resp : Response) :
  Direct.try_block env cfg video buffer k path w = (Return resp, w1) →
  let url := "https://" ++ s3Bucket cfg ++ ".s3." ++ s3Region cfg
               ++ ".amazonaws.com/" ++ k in
  s3 w1 = <[k := (buffer, "video/mp4")]> (s3 w)
  ∧ db w1 = Db.updateVideo (db w) (Db.set_videoURL (Some url) video)
  ∧ resp = {| status := 200; body := Db.set_videoURL (Some url) video |}.
Proof.
  run_direct. intros H.
  repeat (case_match; simplify_eq/=).
  match goal with
  | Hl : <[_:=_]> _ !! _ = Some _ |- _ =>
      rewrite lookup_insert_eq in Hl; injection Hl as <-
  end.
  auto.
Qed.

(** A [try] block that throws. *)
Lemma direct_try_failure (video : Db.Video) (buffer : Bytes) (k path : string)
    (w w1 : World) (e : JsError) :
  Direct.try_block env cfg video buffer k path w = (Throw e, w1) →
  s3 w1 = s3 w ∧ db w1 = db w.
Proof.
  run_direct. intros H.
  repeat (case_match; simplify_eq/=); auto.
Qed.

(** The handler after its checks. *)
Lemma direct_after_checks (req : Request) (w w0 : World) (user : string)
    (video : Db.Video) (file : File) :
  Direct.checks env cfg req w = (Return (user, video, file), w0) →
  let tried := Direct.try_block env cfg video (bytes file) key temp w0 in
  Direct.handlerUploadVideo env cfg req w
    = (tried.1, (Direct.finally_block env temp tried.2).2).
Proof.
  intros Hchecks. cbv zeta.
  apply direct_checks_pass in Hchecks as Hpass.
  destruct Hpass as (_ & _ & _ & _ & Htype).
  unfold Direct.handlerUploadVideo. eff_unfold. rewrite Hchecks.
  rewrite Htype, mp4_extension.
  change (randomBytes_base64url env 32 ++ "." ++ "mp4") with key.
  fold temp. unfold Eff.try_finally.
  destruct (Direct.try_block _ _ _ _ _ _ _) as [c w1]. simpl.
  destruct (direct_finally_safe temp w1) as (Hret & _).
  destruct (Direct.finally_block env temp w1) as [[[]|e] w2]; simpl in *;
    [reflexivity | discriminate].
Qed.

End DirectUpload.

(** X8: when the handler without remux returns a response, the object
    store holds the uploaded bytes, unchanged, under the generated
    name [{random}.mp4] with type video/mp4; the record read back from
    the table has the public URL of that object as its video URL; and
    the response carries that same record, with that URL, not a signed
    one. *)
Theorem direct_upload_stores_the_upload (env : Env) (cfg : ApiConfig)
    (req : Request) (w w' : World) (resp : Response) :
  Direct.handlerUploadVideo env cfg req w = (Return resp, w') →
  ∃ user video file,
    let key := randomBytes_base64url env 32 ++ ".mp4" in
    let url := "https://" ++ s3Bucket cfg ++ ".s3." ++ s3Region cfg
                 ++ ".amazonaws.com/" ++ key in
    reaches_record env cfg req w user video
    ∧ Db.userID video = user
    ∧ formData_video req = Some file
    ∧ s3 w' = <[key := (bytes file, "video/mp4")]> (s3 w)
    ∧ db w' = Db.updateVideo (db w) (Db.set_videoURL (Some url) video)
    ∧ resp = {| status := 200; body := Db.set_videoURL (Some url) video |}
    ∧ (∃ videoId stored,
         params_videoId req = Some videoId
         ∧ Db.getVideo (db w') videoId = Some stored
         ∧ Db.videoURL stored = Some url
         ∧ body resp = stored)
    ∧ Db.videoURL (body resp) = Some url.
Proof.
  intros Hrun.
  destruct (direct_checks_frame env cfg req w) as (_ & Hs3c & Hdbc).
  destruct (Direct.checks env cfg req w) as [[[[user video] file]|e0] w0] eqn:Hc;
    simpl in Hs3c, Hdbc.
  - rewrite (direct_after_checks env cfg req w w0 user video file Hc) in Hrun.
    cbv zeta in Hrun.
    destruct (Direct.try_block _ _ _ _ _ _ _) as [[r|e1] w1] eqn:Htry;
      simpl in Hrun; [|discriminate].
    apply direct_try_success in Htry as (Hs3 & Hdb & ->).
    injection Hrun as <- <-.
    apply direct_checks_pass in Hc as (Hreach & Hown & Hfile & _ & _).
    destruct (direct_finally_safe env
                (path_join env (assetsRoot cfg)
                   (randomBytes_base64url env 32 ++ ".mp4")) w1)
      as (_ & Hs3' & Hdb' & _).
    exists user, video, file. cbv zeta.
    rewrite Hs3', Hdb', Hs3, Hdb, Hs3c, Hdbc.
    repeat split; try assumption.
    destruct Hreach as (videoId & token & Hid & _ & _ & _ & Hget).
    exists videoId, (Db.set_videoURL
                       (Some ("https://" ++ s3Bucket cfg ++ ".s3." ++ s3Region cfg
                                ++ ".amazonaws.com/"
                                ++ randomBytes_base64url env 32 ++ ".mp4")) video).
    repeat split; [exact Hid|].
    apply (getVideo_updateVideo_same _ _ video); [exact Hget|].
    simpl. apply (getVideo_id _ _ _ Hget).
  - unfold Direct.handlerUploadVideo in Hrun. eff_unfold.
    rewrite Hc in Hrun. discriminate.
Qed.

(** Alice's upload through the handler without remux. *)
Lemma direct_upload_stores_the_upload_witness :
  let run := Direct.handlerUploadVideo (Demo.env Demo.happy) Demo.cfg
               (Demo.request "alice" (Some Demo.mp4)) Demo.world0 in
  ∃ user video file,
    reaches_record (Demo.env Demo.happy) Demo.cfg
      (Demo.request "alice" (Some Demo.mp4)) Demo.world0 user video
    ∧ Db.userID video = user
    ∧ Some Demo.mp4 = Some file
    ∧ s3 run.2 = <["q0Zr3vXw.mp4" := (bytes file, "video/mp4")]> ∅
    ∧ db run.2
        = Db.updateVideo [Demo.boots]
            (Db.set_videoURL
               (Some "https://tubely.s3.eu-west-1.amazonaws.com/q0Zr3vXw.mp4") video)
    ∧ {| status := 200;
         body := Db.set_videoURL
                   (Some "https://tubely.s3.eu-west-1.amazonaws.com/q0Zr3vXw.mp4")
                   Demo.boots |}
      = {| status := 200;
           body := Db.set_videoURL
                     (Some "https://tubely.s3.eu-west-1.amazonaws.com/q0Zr3vXw.mp4")
                     video |}
    ∧ (∃ videoId stored,
         Some "v1" = Some videoId
         ∧ Db.getVideo (db run.2) videoId = Some stored
         ∧ Db.videoURL stored
             = Some "https://tubely.s3.eu-west-1.amazonaws.com/q0Zr3vXw.mp4"
         ∧ Db.set_videoURL
             (Some "https://tubely.s3.eu-west-1.amazonaws.com/q0Zr3vXw.mp4")
             Demo.boots = stored)
    ∧ Some "https://tubely.s3.eu-west-1.amazonaws.com/q0Zr3vXw.mp4"
        = Some "https://tubely.s3.eu-west-1.amazonaws.com/q0Zr3vXw.mp4".
Proof.
  cbv zeta.
  apply (direct_upload_stores_the_upload (Demo.env Demo.happy) Demo.cfg
           (Demo.request "alice" (Some Demo.mp4)) Demo.world0 _
           {| status := 200;
              body := Db.set_videoURL
                        (Some "https://tubely.s3.eu-west-1.amazonaws.com/q0Zr3vXw.mp4")
                        Demo.boots |}).
  apply run_eq. vm_compute. reflexivity.
Defined.

(** X9: a request to the handler without remux that ends in a thrown
    error has written neither the table nor the object store. *)
Theorem direct_failed_upload_writes_nothing (env : Env) (cfg : ApiConfig)
    (req : Request) (w w' : World) (e : JsError) :
  Direct.handlerUploadVideo env cfg req w = (Throw e, w') →
  db w' = db w ∧ s3 w' = s3 w.
Proof.
  intros Hrun.
  destruct (direct_checks_frame env cfg req w) as (_ & Hs3c & Hdbc).
  destruct (Direct.checks env cfg req w) as [[[[user video] file]|e0] w0] eqn:Hc;
    simpl in Hs3c, Hdbc.
  - rewrite (direct_after_checks env cfg req w w0 user video file Hc) in Hrun.
    cbv zeta in Hrun.
    destruct (Direct.try_block _ _ _ _ _ _ _) as [[r|e1] w1] eqn:Htry;
      simpl in Hrun; [discriminate|].
    apply direct_try_failure in Htry as (Hs3 & Hdb).
    injection Hrun as _ <-.
    destruct (direct_finally_safe env
                (path_join env (assetsRoot cfg)
                   (randomBytes_base64url env 32 ++ ".mp4")) w1)
      as (_ & Hs3' & Hdb' & _).
    rewrite Hs3', Hdb', Hs3, Hdb. auto.
  - unfold Direct.handlerUploadVideo in Hrun. eff_unfold.
    rewrite Hc in Hrun. injection Hrun as _ <-. auto.
Qed.

(** The object store refuses the upload. *)
Lemma direct_failed_upload_writes_nothing_witness :
  let run := Direct.handlerUploadVideo (Demo.env Cases.upload_breaks) Demo.cfg
               (Demo.request "alice" (Some Demo.mp4)) Demo.world0 in
  db run.2 = [Demo.boots] ∧ s3 run.2 = ∅.
Proof.
  cbv zeta.
  apply (direct_failed_upload_writes_nothing (Demo.env Cases.upload_breaks)
           Demo.cfg (Demo.request "alice" (Some Demo.mp4)) Demo.world0 _
           (Error "S3 upload failed")).
  apply run_eq. vm_compute. reflexivity.
Defined.

Section DirectFiles.
Context (env : Env) (cfg : ApiConfig).

(** A [finally] block whose deletion goes through removes the path,
    and nothing else. *)
Lemma direct_finally_files (path : string) (w : World) :
  delete_failure env path = None →
  fs (Direct.finally_block env path w).2 = delete path (fs w).
Proof.
  intros Hdel.
  unfold Direct.finally_block, Direct.release, Bun_file_exists,
    Bun_file_delete, console_log.
  eff_unfold. rewrite Hdel.
  destruct (bool_decide (is_Some (fs w !! path))) eqn:Hex; simpl.
  - reflexivity.
  - apply not_is_Some_None in Hex. symmetry. apply delete_id, Hex.
Qed.

(** The [try] block writes at most the staged file. *)
Lemma direct_try_files (video : Db.Video) (buffer : Bytes) (k path : string)
    (w : World) :
  delete path (fs (Direct.try_block env cfg video buffer k path w).2)
    = delete path (fs w).
Proof.
  unfold Direct.try_block, Bun_write, uploadVideoToS3, console_log.
  eff_unfold.
  repeat (case_match; simplify_eq/=); try reflexivity;
    apply delete_insert_eq.
Qed.

End DirectFiles.

(** X10: the handler without remux leaves the local files exactly as
    it found them, whatever the request and however it ends, provided
    the staged path was free before and its deletion does not fail. *)
Theorem direct_upload_leaves_no_file (env : Env) (cfg : ApiConfig)
    (req : Request) (w : World) :
  let temp := path_join env (assetsRoot cfg)
                (randomBytes_base64url env 32 ++ ".mp4") in
  delete_failure env temp = None →
  fs w !! temp = None →
  fs (Direct.handlerUploadVideo env cfg req w).2 = fs w.
Proof.
  cbv zeta. intros Hdel Hfree.
  destruct (direct_checks_frame env cfg req w) as (Hfsc & _ & _).
  destruct (Direct.checks env cfg req w) as [[[[user video] file]|e0] w0] eqn:Hc;
    simpl in Hfsc.
  - rewrite (direct_after_checks env cfg req w w0 user video file Hc).
    cbv zeta. simpl.
    rewrite (direct_finally_files env _ _ Hdel), direct_try_files, Hfsc.
    apply delete_id, Hfree.
  - unfold Direct.handlerUploadVideo. eff_unfold. rewrite Hc. exact Hfsc.
Qed.

(** A refused upload leaves the assets directory empty. *)
Lemma direct_upload_leaves_no_file_witness :
  fs (Direct.handlerUploadVideo (Demo.env Cases.upload_breaks) Demo.cfg
        (Demo.request "alice" (Some Demo.mp4)) Demo.world0).2 = ∅.
Proof.
  apply (direct_upload_leaves_no_file (Demo.env Cases.upload_breaks) Demo.cfg
           (Demo.request "alice" (Some Demo.mp4)) Demo.world0);
    reflexivity.
Defined.



(** ** Thumbnails *)

Example base64_samples :
  Base64.encode [] = ""
  ∧ Base64.encode [Byte.x4d] = "TQ=="
  ∧ Base64.encode [Byte.x4d; Byte.x61] = "TWE="
  ∧ Base64.encode [Byte.x4d; Byte.x61; Byte.x6e] = "TWFu"
  ∧ Base64.encode [Byte.xff; Byte.xfe; Byte.xfd; Byte.x00] = "//79AA==".
Proof. repeat split; reflexivity. Qed.

Lemma thumbnail_limit : Thumbnails.MAX_UPLOAD_SIZE = 10485760.
Proof. reflexivity. Qed.

(** X12: the thumbnail handler never touches local files or the object
    store, whatever the request; and when it throws, it has not
    written the table either. *)
Theorem thumbnail_upload_is_table_only (env : Env) (cfg : ApiConfig)
    (req : Thumbnails.Request) (w : World) :
  let run := Thumbnails.handlerUploadThumbnail env cfg req w in
  fs run.2 = fs w ∧ s3 run.2 = s3 w
  ∧ (is_throw run.1 = true → db run.2 = db w).
Proof.
  cbv zeta. unfold Thumbnails.handlerUploadThumbnail, console_log. eff_unfold.
  repeat (case_match; simplify_eq/=); auto; repeat split; discriminate.
Qed.

(** X13: when the thumbnail handler returns a response, the request
    named a record of the caller and carried a file of at most
    10485760 bytes, of any media type; the record written to the table
    and returned in the response is the fetched record with its
    thumbnail URL set to the data URL
    [data:{type};base64,{base64 of the bytes}] and no other field
    changed. *)
Theorem thumbnail_upload_success (env : Env) (cfg : ApiConfig)
    (req : Thumbnails.Request) (w w' : World) (resp : Response) :
  Thumbnails.handlerUploadThumbnail env cfg req w = (Return resp, w') →
  ∃ videoId video file,
    Thumbnails.params_videoId req = Some videoId
    ∧ Db.getVideo (db w) videoId = Some video
    ∧ Thumbnails.formData_thumbnail req = Some file
    ∧ size file ≤ 10485760
    ∧ db w' = Db.updateVideo (db w) (body resp)
    ∧ status resp = 200
    ∧ Db.thumbnailURL (body resp)
        = Some ("data:" ++ type file ++ ";base64," ++ Base64.encode (bytes file))
    ∧ Db.id (body resp) = Db.id video
    ∧ Db.userID (body resp) = Db.userID video
    ∧ Db.videoURL (body resp) = Db.videoURL video
    ∧ Db.columns (body resp) = Db.columns video.
Proof.
  unfold Thumbnails.handlerUploadThumbnail, console_log. eff_unfold.
  destruct (truthy (Thumbnails.params_videoId req)) eqn:Hid; simpl; [|discriminate].
  apply truthy_Some in Hid as (videoId & Hid & Hne). rewrite Hid. simpl.
  destruct (getBearerToken env (Thumbnails.headers req)) as [token|e];
    [|discriminate].
  destruct (validateJWT env token (jwtSecret cfg)) as [user|e]; [|discriminate].
  destruct (Thumbnails.formData_thumbnail req) as [file|]; [|discriminate].
  destruct (Z.gtb_spec (size file) Thumbnails.MAX_UPLOAD_SIZE) as [|Hsize];
    [discriminate|].
  simpl. destruct (Db.getVideo (db w) videoId) as [video|] eqn:Hget;
    [|discriminate].
  destruct (String.eqb (Db.userID video) user); simpl; [|discriminate].
  intros [= <- <-]. rewrite thumbnail_limit in Hsize.
  exists videoId, video, file. repeat split; assumption.
Qed.

(** Alice sets the thumbnail of her record. *)
Lemma thumbnail_upload_success_witness :
  ∃ videoId video file,
    Some "v1" = Some videoId
    ∧ Db.getVideo [Demo.boots] videoId = Some video
    ∧ Some Thumbnails.png = Some file
    ∧ size file ≤ 10485760
    ∧ db (Thumbnails.handlerUploadThumbnail (Demo.env Demo.happy) Demo.cfg
            (Thumbnails.request "alice" (Some Thumbnails.png)) Demo.world0).2
        = Db.updateVideo [Demo.boots]
            {| Db.id := "v1"; Db.userID := "alice";
               Db.thumbnailURL := Some "data:image/png;base64,TWFu";
               Db.videoURL := None; Db.columns := [("title", "Boots")] |}
    ∧ 200 = 200
    ∧ Some "data:image/png;base64,TWFu"
        = Some ("data:" ++ type file ++ ";base64," ++ Base64.encode (bytes file))
    ∧ "v1" = Db.id video
    ∧ "alice" = Db.userID video
    ∧ None = Db.videoURL video
    ∧ [("title", "Boots")] = Db.columns video.
Proof.
  apply (thumbnail_upload_success (Demo.env Demo.happy) Demo.cfg
           (Thumbnails.request "alice" (Some Thumbnails.png)) Demo.world0 _
           {| status := 200;
              body := {| Db.id := "v1"; Db.userID := "alice";
                         Db.thumbnailURL := Some "data:image/png;base64,TWFu";
                         Db.videoURL := None;
                         Db.columns := [("title", "Boots")] |} |}).
  apply run_eq. vm_compute. reflexivity.
Defined.



(** X15: the two uploads compose.  When a thumbnail upload and then a
    video upload for the same record both return, the record in the
    table, and the one in the video response, still carries the data
    URL the thumbnail upload wrote. *)
Theorem thumbnail_survives_video_upload (env : Env) (cfg : ApiConfig)
    (treq : Thumbnails.Request) (vreq : Request) (w w1 w2 : World)
    (r1 r2 : Response) :
  Thumbnails.handlerUploadThumbnail env cfg treq w = (Return r1, w1) →
  handlerUploadVideo env cfg vreq w1 = (Return r2, w2) →
  Thumbnails.params_videoId treq = params_videoId vreq →
  Db.thumbnailURL (body r2) = Db.thumbnailURL (body r1)
  ∧ ∃ videoId stored,
      params_videoId vreq = Some videoId
      ∧ Db.getVideo (db w2) videoId = Some stored
      ∧ Db.thumbnailURL stored = Db.thumbnailURL (body r1)
      ∧ is_Some (Db.videoURL stored).
Proof.
  intros Hthumb Hvideo Hsame.
  apply thumbnail_upload_success in Hthumb
    as (videoId & video & file & Hid & Hget & _ & _ & Hdb1 & _ & _ & Hrid & _).
  apply handler_success in Hvideo
    as (user & video2 & file2 & bucket & data & Hchecks & Hdb2 & _ & ->).
  apply upload_checks_pass in Hchecks
    as (_ & _ & (videoId2 & Hid2 & _ & Hget2) & _).
  assert (videoId2 = videoId) as -> by congruence.
  assert (Db.getVideo (db w1) videoId = Some (body r1)) as Hstored.
  { rewrite Hdb1. apply (getVideo_updateVideo_same _ _ video); [exact Hget|].
    rewrite Hrid. apply (getVideo_id _ _ _ Hget). }
  assert (video2 = body r1) as -> by congruence.
  split; [reflexivity|].
  exists videoId, (Db.set_videoURL
                     (Some (bucket_name bucket ++ "/" ++ processed_path env cfg))
                     (body r1)).
  repeat split; [exact Hid2 | | simpl; eauto].
  rewrite Hdb2. apply (getVideo_updateVideo_same _ _ (body r1)); [exact Hstored|].
  simpl. apply (getVideo_id _ _ _ Hstored).
Qed.

(** Alice sets a thumbnail, then uploads the video. *)
Lemma thumbnail_survives_video_upload_witness :
  let w1 := (Thumbnails.handlerUploadThumbnail (Demo.env Demo.happy) Demo.cfg
               (Thumbnails.request "alice" (Some Thumbnails.png)) Demo.world0).2 in
  let w2 := (handlerUploadVideo (Demo.env Demo.happy) Demo.cfg
               (Demo.request "alice" (Some Demo.mp4)) w1).2 in
  Some "data:image/png;base64,TWFu" = Some "data:image/png;base64,TWFu"
  ∧ ∃ videoId stored,
      Some "v1" = Some videoId
      ∧ Db.getVideo (db w2) videoId = Some stored
      ∧ Db.thumbnailURL stored = Some "data:image/png;base64,TWFu"
      ∧ is_Some (Db.videoURL stored).
Proof.
  cbv zeta.
  apply (thumbnail_survives_video_upload (Demo.env Demo.happy) Demo.cfg
           (Thumbnails.request "alice" (Some Thumbnails.png))
           (Demo.request "alice" (Some Demo.mp4)) Demo.world0
           (Thumbnails.handlerUploadThumbnail (Demo.env Demo.happy) Demo.cfg
              (Thumbnails.request "alice" (Some Thumbnails.png)) Demo.world0).2
           _
           {| status := 200;
              body := {| Db.id := "v1"; Db.userID := "alice";
                         Db.thumbnailURL := Some "data:image/png;base64,TWFu";
                         Db.videoURL := None;
                         Db.columns := [("title", "Boots")] |} |}
           {| status := 200;
              body := {| Db.id := "v1"; Db.userID := "alice";
                         Db.thumbnailURL := Some "data:image/png;base64,TWFu";
                         Db.videoURL :=
                           Some "https://tubely.s3.eu-west-1.amazonaws.com/landscape/assets/q0Zr3vXw.mp4.processed.mp4?X-Amz-Expires=300";
                         Db.columns := [("title", "Boots")] |} |}).
  - apply run_eq. vm_compute. reflexivity.
  - apply run_eq. vm_compute. reflexivity.
  - reflexivity.
Defined.

(** ** The two video handlers side by side *)


(** ** From the uploaded bytes to the stored object *)

Section Dataflow.
Context (env : Env) (cfg : ApiConfig).

(** The [try] block that returns, step by step. *)
Lemma upload_try_dataflow (user : string) (video : Db.Video) (buffer : Bytes)
    (name temp : string) (w w1 : World) (p0 p1 : string) (resp : Response) :
  upload_try env cfg user video buffer name temp (w, p0) = (Return resp, (w1, p1)) →
  let probed := spawn env (ffprobe_argv temp) (<[temp := buffer]> (fs w)) in
  let remuxed := spawn env (ffmpeg_argv temp (temp ++ ".processed.mp4")) probed.2 in
  ∃ d s rest data,
    write_failure env temp = None
    ∧ exitCode probed.1 = 0
    ∧ JSON_parse env (stdout probed.1) = Return d
    ∧ streams d = Some (s :: rest)
    ∧ exitCode remuxed.1 = 0
    ∧ remuxed.2 !! (temp ++ ".processed.mp4") = Some data
    ∧ s3 w1 = <[bucket_name (classify (width s) (height s)) ++ "/" ++ temp
                  ++ ".processed.mp4" := (data, "video/mp4")]> (s3 w).
Proof.
  unfold upload_try, Bun_write, getVideoAspectRatio, processVideoForFastStart,
    uploadVideoToS3, dbVideoToSignedVideo, Bun_spawn, console_log.
  eff_unfold. intros H. cbv zeta.
  repeat (case_match; simplify_eq/=);
    repeat match goal with
      | Hz : negb (_ =? _) = false |- _ =>
          apply negb_false_iff, Z.eqb_eq in Hz
      end;
    repeat (match goal with
            | Hs : spawn _ _ _ = _ |- _ => rewrite Hs
            end; simpl);
    eexists _, _, _, _; repeat split; eauto.
Qed.

End Dataflow.

(** X17: what a returned response says about the steps before it.
    The bytes of the file part were staged as they came; ffprobe, run
    on them, exited with 0 and reported a first stream; ffmpeg, run
    after it, exited with 0 and left a file at the processed path; and
    the object stored is that file, under the bucket name of the
    probed stream followed by [/] and the processed path. *)
Theorem stored_object_follows_probe_and_remux (env : Env) (cfg : ApiConfig)
    (req : Request) (w w' : World) (resp : Response) :
  handlerUploadVideo env cfg req w = (Return resp, w') →
  let staged := staged_path env cfg in
  let processed := processed_path env cfg in
  ∃ file d s rest data,
    let probed := spawn env (ffprobe_argv staged) (<[staged := bytes file]> (fs w)) in
    let remuxed := spawn env (ffmpeg_argv staged processed) probed.2 in
    formData_video req = Some file
    ∧ exitCode probed.1 = 0
    ∧ JSON_parse env (stdout probed.1) = Return d
    ∧ streams d = Some (s :: rest)
    ∧ exitCode remuxed.1 = 0
    ∧ remuxed.2 !! processed = Some data
    ∧ s3 w' = <[bucket_name (classify (width s) (height s)) ++ "/" ++ processed
                  := (data, "video/mp4")]> (s3 w).
Proof.
  intros Hrun. cbv zeta.
  pose proof (upload_checks_world env cfg req w) as Hw.
  destruct (upload_checks env cfg req w) as [[[[user video] file]|e0] w0] eqn:Hc;
    simpl in Hw; subst w0.
  - rewrite (handler_after_checks env cfg req w user video file Hc) in Hrun.
    cbv zeta in Hrun. fold (staged_path env cfg) in Hrun.
    destruct (upload_try _ _ _ _ _ _ _ _) as [[r|e1] [w1 p1]] eqn:Htry;
      simpl in Hrun; [|discriminate].
    apply upload_try_dataflow in Htry
      as (d & s & rest & data & _ & Hp & Hj & Hs & Hr & Hdata & Hs3).
    injection Hrun as _ <-.
    destruct (upload_finally_frame env (staged_path env cfg) w1 p1) as [Hs3' _].
    apply upload_checks_pass in Hc as (_ & _ & _ & _ & Hfile & _).
    exists file, d, s, rest, data. unfold processed_path.
    rewrite Hs3', Hs3. repeat split; assumption.
  - rewrite (handler_stopped_by_check env cfg req w e0) in Hrun
      by (rewrite Hc; reflexivity).
    discriminate.
Qed.

(** Alice's 1920x1080 upload: the object is what ffmpeg wrote, filed
    under landscape. *)
Lemma stored_object_follows_probe_and_remux_witness :
  let run := handlerUploadVideo (Demo.env Demo.happy) Demo.cfg
               (Demo.request "alice" (Some Demo.mp4)) Demo.world0 in
  ∃ file d s rest data,
    Some Demo.mp4 = Some file
    ∧ 0 = 0
    ∧ Demo.hd1080 = Return d
    ∧ streams d = Some (s :: rest)
    ∧ 0 = 0
    ∧ (spawn (Demo.env Demo.happy)
         (ffmpeg_argv "assets/q0Zr3vXw.mp4" "assets/q0Zr3vXw.mp4.processed.mp4")
         (<["assets/q0Zr3vXw.mp4" := bytes file]> ∅)).2
        !! "assets/q0Zr3vXw.mp4.processed.mp4" = Some data
    ∧ s3 run.2
        = <[bucket_name (classify (width s) (height s))
              ++ "/" ++ "assets/q0Zr3vXw.mp4.processed.mp4"
              := (data, "video/mp4")]> ∅.
Proof.
  cbv zeta.
  apply (stored_object_follows_probe_and_remux (Demo.env Demo.happy) Demo.cfg
           (Demo.request "alice" (Some Demo.mp4)) Demo.world0 _
           {| status := 200;
              body := Db.set_videoURL
                        (Some "https://tubely.s3.eu-west-1.amazonaws.com/landscape/assets/q0Zr3vXw.mp4.processed.mp4?X-Amz-Expires=300")
                        Demo.boots |}).
  apply run_eq. vm_compute. reflexivity.
Defined.
